(** * Connect4 front end: the [useConnect4] hook and the board helpers

    A shallow embedding of [hooks/use-connect4] (board helpers, the
    [findWinningCells] scan, the [initGame] / [makeMove] / [resetGame]
    actions) and of the drop-button guard of [GameBoard], together with
    the properties the specification states about them. *)

From Stdlib Require Import ZArith QArith Qminmax Lia Lqa.
From stdpp Require Import base option list strings.

Local Open Scope string_scope.
Local Open Scope nat_scope.

(** ** JavaScript values and control flow *)

(** [type Cell = null | "player" | "ai"]. *)
Inductive Cell := Null | Player | Ai.

#[global] Instance Cell_eq_dec : EqDecision Cell.
Proof. solve_decision. Defined.

(** [type Board = Cell[][]]: an array of rows.  Nothing in the type fixes
    the number of rows or the length of a row. *)
Abbreviation Board := (list (list Cell)).

(** A pair [[row, col]]. *)
Abbreviation Coord := (nat * nat)%type.

(** [type GameStatus]. *)
Inductive GameStatus := playing | won | lost | draw | connecting | error.

#[global] Instance GameStatus_eq_dec : EqDecision GameStatus.
Proof. solve_decision. Defined.

(** The type ["player" | "ai"] of [currentTurn]. *)
Inductive Turn := PlayerTurn | AiTurn.

#[global] Instance Turn_eq_dec : EqDecision Turn.
Proof. solve_decision. Defined.

Definition ROWS : nat := 6.
Definition COLS : nat := 7.

(** A thrown value: an [Error] object with its [message], or any other
    value (the [catch] blocks test [error instanceof Error]). *)
Inductive exn := JsError (message : string) | NonError.

(** Reading a property of [undefined] throws a [TypeError]; the text of
    its message is chosen by the engine. *)
Definition TypeError_undefined : exn :=
  JsError "Cannot read properties of undefined".

(** The value of an expression: a value, or a thrown exception. *)
Inductive result (A : Type) := Ok (a : A) | Raise (e : exn).
Arguments Ok {A} a.
Arguments Raise {A} e.

(** The completion of a statement: it falls through, returns from the
    enclosing function, or throws. *)
Inductive completion (A : Type) := Normal | Return (a : A) | Throw (e : exn).
Arguments Normal {A}.
Arguments Return {A} a.
Arguments Throw {A} e.

(** [s1; s2] *)
Definition seq_stmt {A} (s1 s2 : completion A) : completion A :=
  match s1 with Normal => s2 | _ => s1 end.
Infix ";;;" := seq_stmt (at level 61, left associativity).

(** [if (cond) return v] *)
Definition if_return {A} (cond : result bool) (v : A) : completion A :=
  match cond with
  | Ok true => Return v
  | Ok false => Normal
  | Raise e => Throw e
  end.

(** [a && b] on boolean operands: [b] is evaluated only when [a] is true. *)
Definition js_and (a b : result bool) : result bool :=
  match a with Ok true => b | _ => a end.
Infix "&&&" := js_and (at level 40, left associativity).

(** [for (let i = lo; i < hi; i++) body(i)], [n] iterations from [i]. *)
Fixpoint for_loop {A} (i n : nat) (body : nat -> completion A) : completion A :=
  match n with
  | 0 => Normal
  | S n' =>
      match body i with
      | Normal => for_loop (S i) n' body
      | c => c
      end
  end.

Definition for_range {A} (lo hi : nat) (body : nat -> completion A) : completion A :=
  for_loop lo (hi - lo) body.

(** The value a function call yields from the completion of its body;
    falling off the end yields [dflt] (never reached by the bodies below,
    which end in a [return]). *)
Definition call {A} (dflt : A) (body : completion A) : result A :=
  match body with
  | Normal => Ok dflt
  | Return v => Ok v
  | Throw e => Raise e
  end.

(** ** Board helpers *)

(** [Array(ROWS).fill(null).map(() => Array(COLS).fill(null))] *)
Definition createEmptyBoard : Board :=
  (fun _ : unit => replicate COLS Null) <$> replicate ROWS tt.

(** The callback of [convertBoard]: API cells are the integers 0/1/2. *)
Definition convertCell (humanPlayer : Z) (cell : Z) : Cell :=
  if bool_decide (cell = 0%Z) then Null
  else if bool_decide (cell = humanPlayer) then Player
  else Ai.

Definition convertBoard (apiBoard : list (list Z)) (humanPlayer : Z) : Board :=
  (fun row : list Z => convertCell humanPlayer <$> row) <$> apiBoard.

(** [board[row][col]]: indexing past the end of a row gives [undefined]
    ([None]); indexing a missing row, [undefined[col]], throws. *)
Definition index2 (board : Board) (row col : nat) : result (option Cell) :=
  match board !! row with
  | Some r => Ok (r !! col)
  | None => Raise TypeError_undefined
  end.

(** [board[row][col] === winner] *)
Definition cell_is (board : Board) (winner : Cell) (p : Coord) : result bool :=
  match index2 board p.1 p.2 with
  | Ok v => Ok (bool_decide (v = Some winner))
  | Raise e => Raise e
  end.

Definition findWinningCells_body (board : Board) (winner : Cell)
  : completion (list Coord) :=
  if bool_decide (winner = Null) then Return [] else
  (* Check horizontal *)
  for_range 0 ROWS (fun row =>
    for_range 0 (COLS - 3) (fun col =>
      if_return
        (cell_is board winner (row, col) &&&
         cell_is board winner (row, col + 1) &&&
         cell_is board winner (row, col + 2) &&&
         cell_is board winner (row, col + 3))
        [(row, col); (row, col + 1); (row, col + 2); (row, col + 3)])) ;;;
  (* Check vertical *)
  for_range 0 (ROWS - 3) (fun row =>
    for_range 0 COLS (fun col =>
      if_return
        (cell_is board winner (row, col) &&&
         cell_is board winner (row + 1, col) &&&
         cell_is board winner (row + 2, col) &&&
         cell_is board winner (row + 3, col))
        [(row, col); (row + 1, col); (row + 2, col); (row + 3, col)])) ;;;
  (* Check diagonal (down-right) *)
  for_range 0 (ROWS - 3) (fun row =>
    for_range 0 (COLS - 3) (fun col =>
      if_return
        (cell_is board winner (row, col) &&&
         cell_is board winner (row + 1, col + 1) &&&
         cell_is board winner (row + 2, col + 2) &&&
         cell_is board winner (row + 3, col + 3))
        [(row, col); (row + 1, col + 1); (row + 2, col + 2); (row + 3, col + 3)])) ;;;
  (* Check diagonal (up-right) *)
  for_range 3 ROWS (fun row =>
    for_range 0 (COLS - 3) (fun col =>
      if_return
        (cell_is board winner (row, col) &&&
         cell_is board winner (row - 1, col + 1) &&&
         cell_is board winner (row - 2, col + 2) &&&
         cell_is board winner (row - 3, col + 3))
        [(row, col); (row - 1, col + 1); (row - 2, col + 2); (row - 3, col + 3)])) ;;;
  Return [].

Definition findWinningCells (board : Board) (winner : Cell) : result (list Coord) :=
  call [] (findWinningCells_body board winner).

(** ** API types and the network *)

(** [interface GameStateResponse], the FastAPI schema. *)
Module Api.
Record GameStateResponse := {
  session_id : string;
  board : list (list Z);
  ai_player : Z;
  human_player : Z;
  current_player : Z;
  game_over : bool;
  winner : option Z  (* [number | null] *)
}.
End Api.

(** A number parsed from JSON, by the two things the hook can observe
    of it: whether it is zero (the falsy numbers) and the text that
    [String(n)] gives for it. *)
Record JsNumber := { is_zero : bool; number_text : string }.

(** A value given by [response.json()], which is not typed at run time.
    An object is the list of its members in the order of the text, a later
    member replacing an earlier one of the same name. *)
#[warnings="-register-all"]
Inductive Json :=
| JNull
| JBool (b : bool)
| JNumber (n : JsNumber)
| JString (s : string)
| JArray (items : list Json)
| JObject (members : list (string * Json)).

(** Reading a property of [null] throws a [TypeError]; the text of its
    message is chosen by the engine. *)
Definition TypeError_null : exn :=
  JsError "Cannot read properties of null".

(** The member [name] of a parsed object. *)
Fixpoint js_get (name : string) (members : list (string * Json)) : option Json :=
  match members with
  | [] => None
  | (k, v) :: rest =>
      match js_get name rest with
      | Some later => Some later
      | None => if bool_decide (k = name) then Some v else None
      end
  end.

(** [value.detail]: the member of an object, [undefined] ([None]) on an
    object without one, on an array and on a boolean, a number or a string;
    on [null] the read throws. *)
Definition js_detail (value : Json) : result (option Json) :=
  match value with
  | JNull => Raise TypeError_null
  | JObject members => Ok (js_get "detail" members)
  | JBool _ | JNumber _ | JString _ | JArray _ => Ok None
  end.

(** Truthiness: [null], [false], zero and the empty string are falsy;
    arrays and objects are truthy, empty or not. *)
Definition js_truthy (value : Json) : bool :=
  match value with
  | JNull => false
  | JBool b => b
  | JNumber n => negb (is_zero n)
  | JString s => negb (bool_decide (s = ""))
  | JArray _ | JObject _ => true
  end.

(** [String(value)], as [new Error(value)] takes its message: an array
    is its items joined by commas, a [null] item giving the empty text; an
    object is "[object Object]". *)
Fixpoint js_to_string (value : Json) : string :=
  match value with
  | JNull => "null"
  | JBool b => if b then "true" else "false"
  | JNumber n => number_text n
  | JString s => s
  | JArray items =>
      String.concat ","
        (List.map (fun item =>
                     match item with
                     | JNull => ""
                     | _ => js_to_string item
                     end) items)
  | JObject _ => "[object Object]"
  end.

(** [a || b], with [undefined] for [None]. *)
Definition js_or (a : option Json) (b : Json) : Json :=
  match a with
  | Some v => if js_truthy v then v else b
  | None => b
  end.

(** What the hook reads of a [Response]: [response.ok] selects the
    constructor; [json] is the outcome of [response.json()]: for an ok
    response the [GameStateResponse] the hook declares it to be, for any
    other response whatever value the body holds. *)
Inductive Response :=
| HttpOk (json : result Api.GameStateResponse)
| HttpFail (statusText : string) (json : result Json).

Inductive Request :=
| InitRequest                                      (* POST /game/init *)
| MoveRequest (session_id : string) (column : nat) (* POST /game/move *).

(** [await fetch(...)] resolves with a response or rejects. *)
Inductive FetchOutcome := Rejected (e : exn) | Resolved (r : Response).

(** Truthiness of a string-or-absent value: [undefined], [null] and the
    empty string are falsy. *)
Definition truthy (v : option string) : bool :=
  match v with
  | Some s => negb (bool_decide (s = ""))
  | None => false
  end.

(** ** The state of the hook *)

Record Connect4State := {
  board : Board;
  currentTurn : Turn;
  status : GameStatus;
  winningCells : list Coord;
  isThinking : bool;
  errorMessage : option string;
  aiFirst : bool
}.

(** The object held by [sessionRef.current]. *)
Module Session.
Record t := {
  session_id : option string;
  human_player : Z;
  ai_player : Z
}.
End Session.

(** The hook: its React state, its ref, and the requests sent so far. *)
Record Hook := {
  state : Connect4State;
  sessionRef : Session.t;
  requests : list Request
}.

(** The initial values given to [useState] and [useRef]. *)
Definition initial_state : Connect4State :=
  {| board := createEmptyBoard; currentTurn := PlayerTurn; status := connecting;
     winningCells := []; isThinking := false; errorMessage := None;
     aiFirst := false |}.

Definition initial_hook : Hook :=
  {| state := initial_state;
     sessionRef := {| Session.session_id := None; Session.human_player := 1;
                      Session.ai_player := 2 |};
     requests := [] |}.

(** ** Effects: state that survives a throw *)

Definition Eff (A : Type) : Type := Hook -> Hook * result A.

Definition ret {A} (a : A) : Eff A := fun h => (h, Ok a).

Definition bind {A B} (m : Eff A) (k : A -> Eff B) : Eff B :=
  fun h =>
    match m h with
    | (h', Ok a) => k a h'
    | (h', Raise e) => (h', Raise e)
    end.

Notation "x <- m ;; k" := (bind m (fun x => k))
  (at level 100, m at next level, right associativity).
Notation "m ;; k" := (bind m (fun _ => k))
  (at level 100, right associativity).

(** [throw e] *)
Definition throw {A} (e : exn) : Eff A := fun h => (h, Raise e).

(** The value of a pure expression that may throw. *)
Definition lift {A} (r : result A) : Eff A := fun h => (h, r).

(** [try { m } catch (error) { handler(error) }] *)
Definition try_catch {A} (m : Eff A) (handler : exn -> Eff A) : Eff A :=
  fun h =>
    match m h with
    | (h', Ok a) => (h', Ok a)
    | (h', Raise e) => handler e h'
    end.

Definition modify_state (f : Connect4State -> Connect4State) : Eff unit :=
  fun h => ({| state := f (state h); sessionRef := sessionRef h;
               requests := requests h |}, Ok tt).

Definition setBoard (v : Board) : Eff unit :=
  modify_state (fun s =>
    {| board := v; currentTurn := currentTurn s; status := status s;
       winningCells := winningCells s; isThinking := isThinking s;
       errorMessage := errorMessage s; aiFirst := aiFirst s |}).

Definition setCurrentTurn (v : Turn) : Eff unit :=
  modify_state (fun s =>
    {| board := board s; currentTurn := v; status := status s;
       winningCells := winningCells s; isThinking := isThinking s;
       errorMessage := errorMessage s; aiFirst := aiFirst s |}).

Definition setStatus (v : GameStatus) : Eff unit :=
  modify_state (fun s =>
    {| board := board s; currentTurn := currentTurn s; status := v;
       winningCells := winningCells s; isThinking := isThinking s;
       errorMessage := errorMessage s; aiFirst := aiFirst s |}).

Definition setWinningCells (v : list Coord) : Eff unit :=
  modify_state (fun s =>
    {| board := board s; currentTurn := currentTurn s; status := status s;
       winningCells := v; isThinking := isThinking s;
       errorMessage := errorMessage s; aiFirst := aiFirst s |}).

Definition setIsThinking (v : bool) : Eff unit :=
  modify_state (fun s =>
    {| board := board s; currentTurn := currentTurn s; status := status s;
       winningCells := winningCells s; isThinking := v;
       errorMessage := errorMessage s; aiFirst := aiFirst s |}).

Definition setErrorMessage (v : option string) : Eff unit :=
  modify_state (fun s =>
    {| board := board s; currentTurn := currentTurn s; status := status s;
       winningCells := winningCells s; isThinking := isThinking s;
       errorMessage := v; aiFirst := aiFirst s |}).

Definition setAiFirst (v : bool) : Eff unit :=
  modify_state (fun s =>
    {| board := board s; currentTurn := currentTurn s; status := status s;
       winningCells := winningCells s; isThinking := isThinking s;
       errorMessage := errorMessage s; aiFirst := v |}).

(** [sessionRef.current = v] *)
Definition setSessionRef (v : Session.t) : Eff unit :=
  fun h => ({| state := state h; sessionRef := v; requests := requests h |}, Ok tt).

(** ** The actions of [useConnect4] *)

Section Actions.

(** The backend, as seen from the hook: what each request meets. *)
Variable net : Request -> FetchOutcome.

(** [await fetch(...)]: the request is sent, then the outcome is known. *)
Definition fetch (req : Request) : Eff Response :=
  fun h =>
    let h' := {| state := state h; sessionRef := sessionRef h;
                 requests := requests h ++ [req] |} in
    match net req with
    | Resolved r => (h', Ok r)
    | Rejected e => (h', Raise e)
    end.

(** The six setter calls that open [initGame], before its [try]. *)
Definition initGame_reset : Eff unit :=
  setStatus connecting ;;
  setIsThinking true ;;
  setErrorMessage None ;;
  setBoard createEmptyBoard ;;
  setWinningCells [] ;;
  setAiFirst false.

(** The [try]/[catch] of [initGame]. *)
Definition initGame_connect : Eff unit :=
  try_catch
    (response <- fetch InitRequest ;;
     match response with
     | HttpFail statusText _ =>
         throw (JsError ("Failed to initialize game: " +:+ statusText))
     | HttpOk json =>
         data <- lift json ;;
         setSessionRef
           {| Session.session_id := Some (Api.session_id data);
              Session.human_player := Api.human_player data;
              Session.ai_player := Api.ai_player data |} ;;
         let uiBoard := convertBoard (Api.board data) (Api.human_player data) in
         setBoard uiBoard ;;
         let hasAIMoved :=
           existsb (fun row => existsb (fun cell => negb (bool_decide (cell = 0%Z))) row)
                   (Api.board data) in
         setAiFirst hasAIMoved ;;
         let isPlayerTurn :=
           bool_decide (Api.current_player data = Api.human_player data) in
         setCurrentTurn (if isPlayerTurn then PlayerTurn else AiTurn) ;;
         setStatus playing ;;
         setIsThinking false
     end)
    (fun err =>
       setStatus error ;;
       setErrorMessage
         (Some match err with
               | JsError message => message
               | NonError => "Failed to connect to game server"
               end) ;;
       setIsThinking false).

Definition initGame : Eff unit := initGame_reset ;; initGame_connect.

(** The status block of [makeMove] ("Check game status"). *)
Definition makeMove_status (data : Api.GameStateResponse) (uiBoard : Board) : Eff unit :=
  if Api.game_over data then
    if bool_decide (Api.winner data = Some 3%Z) then
      setStatus draw
    else if bool_decide (Api.winner data = Some (Api.human_player data)) then
      setStatus won ;;
      cells <- lift (findWinningCells uiBoard Player) ;;
      setWinningCells cells
    else
      setStatus lost ;;
      cells <- lift (findWinningCells uiBoard Ai) ;;
      setWinningCells cells
  else
    let isPlayerTurn :=
      bool_decide (Api.current_player data = Api.human_player data) in
    setCurrentTurn (if isPlayerTurn then PlayerTurn else AiTurn).

(** What [makeMove] does with the outcome of its request: the body of
    its [try] after [fetch], and its [catch]. *)
Definition makeMove_request (sid : string) (col : nat) : Eff unit :=
  try_catch
    (response <- fetch (MoveRequest sid col) ;;
     match response with
     | HttpFail statusText json =>
         let errorData :=
           match json with Ok d => d | Raise _ => JObject [] end in
         detail <- lift (js_detail errorData) ;;
         throw (JsError (js_to_string
                           (js_or detail (JString ("Move failed: " +:+ statusText)))))
     | HttpOk json =>
         data <- lift json ;;
         let uiBoard := convertBoard (Api.board data) (Api.human_player data) in
         setBoard uiBoard ;;
         makeMove_status data uiBoard ;;
         setIsThinking false
     end)
    (fun err =>
       setErrorMessage
         (Some match err with
               | JsError message => message
               | NonError => "Failed to make move"
               end) ;;
       setIsThinking false).

(** [makeMove(col)], reading [status], [currentTurn], [isThinking] and
    [board] as its closure holds them. *)
Definition makeMove (col : nat) : Eff unit :=
  fun h =>
    let s := state h in
    if negb (bool_decide (status s = playing))
       || negb (bool_decide (currentTurn s = PlayerTurn))
       || isThinking s
    then ret tt h
    else
      match Session.session_id (sessionRef h) with
      | None => ret tt h
      | Some sid =>
          if negb (truthy (Some sid)) then ret tt h
          else
            (top <- lift (index2 (board s) 0 col) ;;
             if negb (bool_decide (top = Some Null)) then ret tt
             else setIsThinking true ;; makeMove_request sid col) h
      end.

Definition resetGame : Eff unit := initGame.

End Actions.

(** ** The drop buttons of [GameBoard] *)

(** The [disabled] prop [Connect4Game] passes to [GameBoard]. *)
Definition gameBoard_disabled (s : Connect4State) : bool :=
  negb (bool_decide (status s = playing))
  || negb (bool_decide (currentTurn s = PlayerTurn))
  || isThinking s.

(** [disabled || board[0][col] !== null], the [disabled] prop of the
    drop button of column [col]. *)
Definition dropButton_disabled (board : Board) (disabled : bool) (col : nat)
  : result bool :=
  if disabled then Ok true
  else
    match index2 board 0 col with
    | Ok top => Ok (negb (bool_decide (top = Some Null)))
    | Raise e => Raise e
    end.

(** ** The board, as the specification reads it *)

(** The cell at row [r], column [c], when the board has one. *)
Definition cell_at (b : Board) (r c : nat) : option Cell :=
  b !! r ≫= (.!! c).

(** A 6x7 board. *)
Definition is_6x7 (b : Board) : Prop :=
  length b = ROWS ∧ Forall (fun row => length row = COLS) b.

(** Four consecutive cells equal to [p], starting at row [r], column [c]:
    along the row, down the column, down the diagonal to the right, or down
    the diagonal to the left (from column [c + 3]). *)
Definition four_horizontal (b : Board) (p : Cell) (r c : nat) : Prop :=
  ∀ k, k < 4 → cell_at b r (c + k) = Some p.
Definition four_vertical (b : Board) (p : Cell) (r c : nat) : Prop :=
  ∀ k, k < 4 → cell_at b (r + k) c = Some p.
Definition four_diagonal (b : Board) (p : Cell) (r c : nat) : Prop :=
  ∀ k, k < 4 → cell_at b (r + k) (c + k) = Some p.
Definition four_antidiagonal (b : Board) (p : Cell) (r c : nat) : Prop :=
  ∀ k, k < 4 → cell_at b (r + k) (c + 3 - k) = Some p.

Definition has_four (b : Board) (p : Cell) : Prop :=
  ∃ r c, four_horizontal b p r c ∨ four_vertical b p r c
         ∨ four_diagonal b p r c ∨ four_antidiagonal b p r c.

(** ** The exploration schedule *)

(** Modelled from the spec: the training code (the exploration policy of
    the agent) is not among the sources; this is the linear schedule of
    section 4.3, [max(epsilon_end, epsilon_start - t/decay_steps *
    (epsilon_start - epsilon_end))], over exact rationals. *)
Definition epsilon (epsilon_start epsilon_end : Q) (decay_steps : nat) (t : nat) : Q :=
  Qmax epsilon_end
       (epsilon_start
        - (inject_Z (Z.of_nat t) / inject_Z (Z.of_nat decay_steps))
          * (epsilon_start - epsilon_end))%Q.

(** ** The lines the scan visits *)

(** The four loops of [findWinningCells], in the order they run. *)
Inductive Direction := Horizontal | Vertical | DownRight | UpRight.

(** The four cells tested (and returned) at [row], [col] by each loop. *)
Definition line (d : Direction) (row col : nat) : list Coord :=
  match d with
  | Horizontal => [(row, col); (row, col + 1); (row, col + 2); (row, col + 3)]
  | Vertical => [(row, col); (row + 1, col); (row + 2, col); (row + 3, col)]
  | DownRight => [(row, col); (row + 1, col + 1); (row + 2, col + 2); (row + 3, col + 3)]
  | UpRight => [(row, col); (row - 1, col + 1); (row - 2, col + 2); (row - 3, col + 3)]
  end.

(** The bounds of each loop. *)
Definition in_scan (d : Direction) (row col : nat) : Prop :=
  match d with
  | Horizontal => 0 ≤ row < ROWS ∧ 0 ≤ col < COLS - 3
  | Vertical => 0 ≤ row < ROWS - 3 ∧ 0 ≤ col < COLS
  | DownRight => 0 ≤ row < ROWS - 3 ∧ 0 ≤ col < COLS - 3
  | UpRight => 3 ≤ row < ROWS ∧ 0 ≤ col < COLS - 3
  end.

(** Every cell of [cells] holds [w]. *)
Definition line_holds (b : Board) (w : Cell) (cells : list Coord) : Prop :=
  Forall (fun p => cell_at b p.1 p.2 = Some w) cells.

(** The test-and-return of one loop iteration. *)
Definition check_line (b : Board) (w : Cell) (p1 p2 p3 p4 : Coord)
  : completion (list Coord) :=
  if_return (cell_is b w p1 &&& cell_is b w p2 &&& cell_is b w p3 &&& cell_is b w p4)
            [p1; p2; p3; p4].

(** ** When [makeMove] goes through *)

(** The guards of [makeMove] all pass: the game is being played, it is
    the player's turn, no request is in flight, a session [sid] exists and
    the top cell of column [col] is [null]. *)
Definition accepts_move (h : Hook) (col : nat) (sid : string) : Prop :=
  status (state h) = playing ∧
  currentTurn (state h) = PlayerTurn ∧
  isThinking (state h) = false ∧
  Session.session_id (sessionRef h) = Some sid ∧
  sid ≠ "" ∧
  index2 (board (state h)) 0 col = Ok (Some Null).

(** ** Sample runs *)

(** A backend that opens session "s1" on an empty board with the human
    as player 1, and answers a move in column [col] with the human's piece
    dropped there and the turn given back to the human. *)
Definition sample_response (b : list (list Z)) : Api.GameStateResponse :=
  {| Api.session_id := "s1"; Api.board := b; Api.ai_player := 2;
     Api.human_player := 1; Api.current_player := 1;
     Api.game_over := false; Api.winner := None |}.

Definition sample_backend (req : Request) : FetchOutcome :=
  match req with
  | InitRequest =>
      Resolved (HttpOk (Ok (sample_response (replicate 6 (replicate 7 0%Z)))))
  | MoveRequest _ col =>
      Resolved (HttpOk (Ok (sample_response
        (replicate 5 (replicate 7 0%Z) ++ [<[col := 1%Z]> (replicate 7 0%Z)]))))
  end.

(** A backend that answers every move with a finished game won by
    player [w] on a board whose bottom row holds four pieces of player 1. *)
Definition finished_backend (w : Z) (req : Request) : FetchOutcome :=
  Resolved (HttpOk (Ok
    {| Api.session_id := "s1";
       Api.board := replicate 5 (replicate 7 0%Z) ++ [[1; 1; 1; 1; 2; 2; 2]%Z];
       Api.ai_player := 2; Api.human_player := 1; Api.current_player := 2;
       Api.game_over := true; Api.winner := Some w |})).

(** A backend that cannot be reached, and one that refuses every move. *)
Definition unreachable_backend (req : Request) : FetchOutcome :=
  Rejected (JsError "Failed to fetch").

Definition refusing_backend (req : Request) : FetchOutcome :=
  Resolved (HttpFail "Bad Request"
              (Ok (JObject [("detail", JString "Invalid move")]))).

(** The hook once [initGame] has run against [sample_backend]. *)
Definition started_hook : Hook := (initGame sample_backend initial_hook).1.

(** ** What the components render and wire *)

(** [isWinningCell(row, col)] of [GameBoard]:
    [winningCells.some(([r, c]) => r === row && c === col)]. *)
Definition isWinningCell (winningCells : list Coord) (row col : nat) : bool :=
  existsb (fun '(r, c) => bool_decide (r = row) && bool_decide (c = col))
          winningCells.

(** The [onClick] of a column and of a drop button of [GameBoard],
    [() => !disabled && onColumnClick(col)]; [Connect4Game] passes
    [makeMove] as [onColumnClick]. *)
Definition columnClick (net : Request -> FetchOutcome) (disabled : bool) (col : nat)
  : Eff unit :=
  if disabled then ret tt else makeMove net col.

(** [{errorMessage && (...)}]: whether [Connect4Game] shows the error
    banner. *)
Definition errorBanner_shown (s : Connect4State) : bool :=
  truthy (errorMessage s).

(** [getStatusText] of [GameStatus]. *)
Record StatusText := { main : string; sub : string }.

Definition getStatusText (status : GameStatus) (currentTurn : Turn)
    (isThinking : bool) : StatusText :=
  match status with
  | won =>
      {| main := "VICTORY_ACHIEVED";
         sub := "Neural connection established. Flesh transcended." |}
  | lost =>
      {| main := "SYSTEM_FAILURE";
         sub := "Neural link compromised. Recalibration required." |}
  | draw =>
      {| main := "DEADLOCK";
         sub := "Grid capacity reached. Neither flesh nor machine prevails." |}
  | connecting =>
      {| main := "INITIALIZING";
         sub := "Establishing neural link to DQN core..." |}
  | error =>
      {| main := "CONNECTION_LOST";
         sub := "Failed to reach neural network. Reality fragmented." |}
  | playing =>
      if isThinking then
        {| main := "PROCESSING"; sub := "AI calculating optimal neural pathway..." |}
      else if bool_decide (currentTurn = PlayerTurn) then
        {| main := "AWAITING_INPUT";
           sub := "Select column to deploy consciousness unit" |}
      else
        {| main := "AI_PROCESSING"; sub := "DQN analyzing probability matrices" |}
  end.

(** ** Sessions of play *)

(** What the user can do: press a NEW_GAME / REINITIALIZE / RETRY button
    ([resetGame]; the mount effect runs the same [initGame]), or click a
    column of the board. *)
Inductive Action := NewGame | ColumnClick (col : nat).

(** One action, run to completion against the backend [net]; the board
    is rendered with the [disabled] prop of the state it is clicked in. *)
Definition perform (net : Request -> FetchOutcome) (a : Action) (h : Hook) : Hook :=
  match a with
  | NewGame => (resetGame net h).1
  | ColumnClick col => (columnClick net (gameBoard_disabled (state h)) col h).1
  end.

(** A sequence of actions, each completed before the next, each meeting
    the backend as it then answers. *)
Fixpoint run (script : list (Action * (Request -> FetchOutcome))) (h : Hook) : Hook :=
  match script with
  | [] => h
  | (a, net) :: rest => run rest (perform net a h)
  end.

(** The piece of the other side. *)
Definition swapCell (c : Cell) : Cell :=
  match c with Null => Null | Player => Ai | Ai => Player end.

(** What holds of the hook between two actions: nothing is in flight,
    winning cells are shown only with a win or a loss, and they hold the
    winner's piece. *)
Definition between_actions (h : Hook) : Prop :=
  let s := state h in
  isThinking s = false ∧
  (status s ∈ [playing; connecting; error; draw] → winningCells s = []) ∧
  (status s = won → line_holds (board s) Player (winningCells s)) ∧
  (status s = lost → line_holds (board s) Ai (winningCells s)).

(** More backends for sample runs: one whose ok responses cannot be
    read, one that hands the turn to the AI, one that opens a game without
    rows, and one that opens a session with an empty id. *)
Definition garbled_backend (req : Request) : FetchOutcome :=
  Resolved (HttpOk (Raise (JsError "Unexpected token < in JSON"))).

Definition waiting_backend (req : Request) : FetchOutcome :=
  Resolved (HttpOk (Ok
    {| Api.session_id := "s1";
       Api.board := replicate 5 (replicate 7 0%Z) ++ [[0; 0; 0; 1; 0; 0; 0]%Z];
       Api.ai_player := 2; Api.human_player := 1; Api.current_player := 2;
       Api.game_over := false; Api.winner := None |})).

Definition rowless_backend (req : Request) : FetchOutcome :=
  Resolved (HttpOk (Ok (sample_response []))).

Definition anonymous_backend (req : Request) : FetchOutcome :=
  Resolved (HttpOk (Ok
    {| Api.session_id := ""; Api.board := replicate 6 (replicate 7 0%Z);
       Api.ai_player := 2; Api.human_player := 1; Api.current_player := 1;
       Api.game_over := false; Api.winner := None |})).

(** A board on which "ai" holds an up-right diagonal from the bottom
    left corner, and "player" the cells under it. *)
Definition diagonal_win_board : Board :=
  [ [Null; Null; Null; Null; Null; Null; Null];
    [Null; Null; Null; Null; Null; Null; Null];
    [Null; Null; Null; Ai; Null; Null; Null];
    [Null; Null; Ai; Player; Null; Null; Null];
    [Null; Ai; Player; Player; Null; Null; Null];
    [Ai; Player; Player; Player; Null; Null; Null] ].

(** * Properties *)

Example createEmptyBoard_eval :
  createEmptyBoard = replicate 6 (replicate 7 Null).
Proof. reflexivity. Qed.

Example findWinningCells_diag :
  findWinningCells
    [ [Null; Null; Null; Null; Null; Null; Null];
      [Null; Null; Null; Null; Null; Null; Null];
      [Null; Null; Null; Ai; Null; Null; Null];
      [Null; Null; Ai; Player; Null; Null; Null];
      [Null; Ai; Player; Player; Null; Null; Null];
      [Ai; Player; Player; Player; Null; Null; Null] ] Ai
  = Ok [(5, 0); (4, 1); (3, 2); (2, 3)].
Proof. reflexivity. Qed.

(** ** Loops *)

Section Loops.
Context {A : Type}.
Implicit Types body : nat → completion A.

Lemma for_loop_inv body n i :
  match for_loop i n body with
  | Normal => ∀ j, i ≤ j < i + n → body j = Normal
  | Return a => ∃ j, i ≤ j < i + n ∧ body j = Return a
  | Throw e => ∃ j, i ≤ j < i + n ∧ body j = Throw e
  end.
Proof.
  revert i. induction n as [|n IH]; intros i; simpl.
  - intros j Hj. lia.
  - destruct (body i) eqn:Hb.
    + specialize (IH (S i)). destruct (for_loop (S i) n body).
      * intros j Hj. destruct (decide (j = i)) as [->|Hne]; [done|].
        apply IH. lia.
      * destruct IH as (j & Hj & Hret). exists j. split; [lia|done].
      * destruct IH as (j & Hj & Hthr). exists j. split; [lia|done].
    + exists i. split; [lia|done].
    + exists i. split; [lia|done].
Qed.

Lemma for_range_inv body lo hi :
  match for_range lo hi body with
  | Normal => ∀ j, lo ≤ j < hi → body j = Normal
  | Return a => ∃ j, lo ≤ j < hi ∧ body j = Return a
  | Throw e => ∃ j, lo ≤ j < hi ∧ body j = Throw e
  end.
Proof.
  unfold for_range. pose proof (for_loop_inv body (hi - lo) lo) as H.
  destruct (for_loop lo (hi - lo) body).
  - intros j Hj. apply H. lia.
  - destruct H as (j & Hj & Hb). exists j. split; [lia|done].
  - destruct H as (j & Hj & Hb). exists j. split; [lia|done].
Qed.

(** Two nested loops, as each of the four scans is written. *)
Lemma scan_inv (f : nat → nat → completion A) rlo rhi clo chi :
  match for_range rlo rhi (fun row => for_range clo chi (fun col => f row col)) with
  | Normal => ∀ r c, rlo ≤ r < rhi → clo ≤ c < chi → f r c = Normal
  | Return a => ∃ r c, rlo ≤ r < rhi ∧ clo ≤ c < chi ∧ f r c = Return a
  | Throw e => ∃ r c, rlo ≤ r < rhi ∧ clo ≤ c < chi ∧ f r c = Throw e
  end.
Proof.
  pose proof (for_range_inv
    (fun row => for_range clo chi (fun col => f row col)) rlo rhi) as H.
  destruct (for_range rlo rhi _).
  - intros r c Hr Hc. specialize (H r Hr).
    pose proof (for_range_inv (fun col => f r col) clo chi) as H'.
    rewrite H in H'. by apply H'.
  - destruct H as (r & Hr & H).
    pose proof (for_range_inv (fun col => f r col) clo chi) as H'.
    rewrite H in H'. destruct H' as (c & Hc & H'). by exists r, c.
  - destruct H as (r & Hr & H).
    pose proof (for_range_inv (fun col => f r col) clo chi) as H'.
    rewrite H in H'. destruct H' as (c & Hc & H'). by exists r, c.
Qed.
End Loops.

(** ** The scan *)

Lemma cell_is_inv b w p :
  match cell_is b w p with
  | Ok v => v = bool_decide (cell_at b p.1 p.2 = Some w) ∧ p.1 < length b
  | Raise _ => length b ≤ p.1
  end.
Proof.
  unfold cell_is, index2, cell_at. destruct (b !! p.1) as [r|] eqn:Hr; simpl.
  - split; [done|]. by eapply lookup_lt_Some.
  - by apply lookup_ge_None.
Qed.

Lemma check_line_inv b w p1 p2 p3 p4 :
  match check_line b w p1 p2 p3 p4 with
  | Normal => ¬ line_holds b w [p1; p2; p3; p4]
  | Return cells => cells = [p1; p2; p3; p4] ∧ line_holds b w cells
  | Throw _ => ∃ p, p ∈ [p1; p2; p3; p4] ∧ length b ≤ p.1
  end.
Proof.
  unfold check_line, line_holds.
  pose proof (cell_is_inv b w p1) as H1. pose proof (cell_is_inv b w p2) as H2.
  pose proof (cell_is_inv b w p3) as H3. pose proof (cell_is_inv b w p4) as H4.
  destruct (cell_is b w p1) as [[]|]; simpl;
    [|rewrite !Forall_cons; destruct H1 as [H1 _];
      symmetry in H1; apply bool_decide_eq_false in H1; tauto
     |exists p1; split; [rewrite !elem_of_cons; auto|done]].
  destruct (cell_is b w p2) as [[]|]; simpl;
    [|rewrite !Forall_cons; destruct H2 as [H2 _];
      symmetry in H2; apply bool_decide_eq_false in H2; tauto
     |exists p2; split; [rewrite !elem_of_cons; auto|done]].
  destruct (cell_is b w p3) as [[]|]; simpl;
    [|rewrite !Forall_cons; destruct H3 as [H3 _];
      symmetry in H3; apply bool_decide_eq_false in H3; tauto
     |exists p3; split; [rewrite !elem_of_cons; auto|done]].
  destruct (cell_is b w p4) as [[]|]; simpl;
    [|rewrite !Forall_cons; destruct H4 as [H4 _];
      symmetry in H4; apply bool_decide_eq_false in H4; tauto
     |exists p4; split; [rewrite !elem_of_cons; auto|done]].
  split; [done|].
  destruct H1 as [H1 _], H2 as [H2 _], H3 as [H3 _], H4 as [H4 _].
  symmetry in H1, H2, H3, H4.
  apply bool_decide_eq_true in H1, H2, H3, H4.
  by repeat constructor.
Qed.

Lemma line_in_bounds d r c p :
  in_scan d r c → p ∈ line d r c → p.1 < ROWS ∧ p.2 < COLS.
Proof.
  destruct d; simpl; unfold ROWS, COLS; rewrite !elem_of_cons, elem_of_nil;
    intros ? [->|[->|[->|[->|[]]]]]; simpl; lia.
Qed.

Lemma line_length d r c : length (line d r c) = 4.
Proof. by destruct d. Qed.

(** One of the four scans, read through the line it tests. *)
Lemma scan_line_inv b w d rlo rhi clo chi (f : nat → nat → completion (list Coord)) :
  (∀ r c, in_scan d r c ↔ rlo ≤ r < rhi ∧ clo ≤ c < chi) →
  (∀ r c, ∃ p1 p2 p3 p4,
      line d r c = [p1; p2; p3; p4] ∧ f r c = check_line b w p1 p2 p3 p4) →
  match for_range rlo rhi (fun row => for_range clo chi (fun col => f row col)) with
  | Normal => ∀ r c, in_scan d r c → ¬ line_holds b w (line d r c)
  | Return cells => ∃ r c, in_scan d r c ∧ cells = line d r c ∧ line_holds b w cells
  | Throw _ => length b < ROWS
  end.
Proof.
  intros Hscan Hf. pose proof (scan_inv f rlo rhi clo chi) as H.
  destruct (for_range rlo rhi _) as [|cells|e].
  - intros r c Hin. apply Hscan in Hin as Hrc. destruct Hrc as [Hr Hc].
    specialize (H r c Hr Hc). destruct (Hf r c) as (p1 & p2 & p3 & p4 & -> & Hfc).
    pose proof (check_line_inv b w p1 p2 p3 p4) as Hl.
    rewrite <- Hfc, H in Hl. done.
  - destruct H as (r & c & Hr & Hc & H).
    destruct (Hf r c) as (p1 & p2 & p3 & p4 & Hline & Hfc).
    pose proof (check_line_inv b w p1 p2 p3 p4) as Hl.
    rewrite <- Hfc, H in Hl. destruct Hl as [-> Hl].
    exists r, c. rewrite Hline. split; [by apply Hscan|done].
  - destruct H as (r & c & Hr & Hc & H).
    destruct (Hf r c) as (p1 & p2 & p3 & p4 & Hline & Hfc).
    pose proof (check_line_inv b w p1 p2 p3 p4) as Hl.
    rewrite <- Hfc, H in Hl. destruct Hl as (p & Hp & Hlen).
    rewrite <- Hline in Hp.
    assert (in_scan d r c) as Hin by by apply Hscan.
    pose proof (line_in_bounds d r c p Hin Hp). lia.
Qed.

(** What the body of [findWinningCells] completes with, for a piece. *)
Lemma findWinningCells_body_inv b w :
  w ≠ Null →
  match findWinningCells_body b w with
  | Normal => False
  | Return cells =>
      (cells = [] ∧ ∀ d r c, in_scan d r c → ¬ line_holds b w (line d r c))
      ∨ (∃ d r c, in_scan d r c ∧ cells = line d r c ∧ line_holds b w cells)
  | Throw _ => length b < ROWS
  end.
Proof.
  intros Hw. unfold findWinningCells_body.
  rewrite bool_decide_eq_false_2 by done.
  assert (∀ d, ∀ r c, ∃ p1 p2 p3 p4, line d r c = [p1; p2; p3; p4]
            ∧ check_line b w (line d r c !!! 0) (line d r c !!! 1)
                (line d r c !!! 2) (line d r c !!! 3)
              = check_line b w p1 p2 p3 p4) as Hline.
  { intros d r c. destruct d; simpl; by eexists _, _, _, _. }
  pose proof (scan_line_inv b w Horizontal 0 ROWS 0 (COLS - 3) _
    ltac:(simpl; unfold ROWS, COLS; lia) (Hline Horizontal)) as H1.
  pose proof (scan_line_inv b w Vertical 0 (ROWS - 3) 0 COLS _
    ltac:(simpl; unfold ROWS, COLS; lia) (Hline Vertical)) as H2.
  pose proof (scan_line_inv b w DownRight 0 (ROWS - 3) 0 (COLS - 3) _
    ltac:(simpl; unfold ROWS, COLS; lia) (Hline DownRight)) as H3.
  pose proof (scan_line_inv b w UpRight 3 ROWS 0 (COLS - 3) _
    ltac:(simpl; unfold ROWS, COLS; lia) (Hline UpRight)) as H4.
  cbv beta in H1, H2, H3, H4. unfold check_line in H1, H2, H3, H4.
  simpl line in H1, H2, H3, H4. simpl lookup_total in H1, H2, H3, H4.
  destruct (for_range 0 ROWS _) as [|cells|e]; cbn [seq_stmt];
    [|right; destruct H1 as (r & c & ?); by exists Horizontal, r, c|done].
  destruct (for_range 0 (ROWS - 3) (fun row => for_range 0 COLS _)) as [|cells|e];
    cbn [seq_stmt];
    [|right; destruct H2 as (r & c & ?); by exists Vertical, r, c|done].
  destruct (for_range 0 (ROWS - 3) _) as [|cells|e]; cbn [seq_stmt];
    [|right; destruct H3 as (r & c & ?); by exists DownRight, r, c|done].
  destruct (for_range 3 ROWS _) as [|cells|e]; cbn [seq_stmt];
    [|right; destruct H4 as (r & c & ?); by exists UpRight, r, c|done].
  left. split; [done|]. intros [] r c; [apply H1|apply H2|apply H3|apply H4].
Qed.

Lemma findWinningCells_Null b : findWinningCells b Null = Ok [].
Proof. reflexivity. Qed.

(** With six rows or more, every row the scan reads exists: the call
    returns, with no line found or with the first line found. *)
Lemma findWinningCells_inv b w :
  w ≠ Null → ROWS ≤ length b →
  ∃ cells, findWinningCells b w = Ok cells ∧
    ((cells = [] ∧ ∀ d r c, in_scan d r c → ¬ line_holds b w (line d r c))
     ∨ (∃ d r c, in_scan d r c ∧ cells = line d r c ∧ line_holds b w cells)).
Proof.
  intros Hw Hlen. unfold findWinningCells.
  pose proof (findWinningCells_body_inv b w Hw) as H.
  destruct (findWinningCells_body b w) as [|cells|e]; simpl; [done| |lia].
  by exists cells.
Qed.

Lemma cell_at_6x7 b r c v :
  is_6x7 b → cell_at b r c = Some v → r < ROWS ∧ c < COLS.
Proof.
  intros [Hrows Hcols] Hcell. unfold cell_at in Hcell.
  destruct (b !! r) as [row|] eqn:Hrow; simpl in Hcell; [|done].
  split.
  - rewrite <- Hrows. by eapply lookup_lt_Some.
  - rewrite Forall_lookup in Hcols. rewrite <- (Hcols r row Hrow).
    by eapply lookup_lt_Some.
Qed.

(** A line of the scan that holds is four consecutive cells. *)
Lemma line_holds_has_four b w d r c :
  in_scan d r c → line_holds b w (line d r c) → has_four b w.
Proof.
  unfold line_holds. intros Hin Hl.
  destruct d; simpl in Hin, Hl; rewrite !Forall_cons in Hl; simpl in Hl;
    destruct Hl as (H0 & H1 & H2 & H3 & _).
  - exists r, c. left. intros k Hk.
    destruct k as [|[|[|[|k]]]]; [rewrite Nat.add_0_r| | | |lia]; done.
  - exists r, c. right; left. intros k Hk.
    destruct k as [|[|[|[|k]]]]; [rewrite Nat.add_0_r| | | |lia]; done.
  - exists r, c. right; right; left. intros k Hk.
    destruct k as [|[|[|[|k]]]]; [rewrite !Nat.add_0_r| | | |lia]; done.
  - exists (r - 3), c. right; right; right. intros k Hk.
    destruct k as [|[|[|[|k]]]]; [| | | |lia].
    + replace (r - 3 + 0) with (r - 3) by lia.
      replace (c + 3 - 0) with (c + 3) by lia. done.
    + replace (r - 3 + 1) with (r - 2) by lia.
      replace (c + 3 - 1) with (c + 2) by lia. done.
    + replace (r - 3 + 2) with (r - 1) by lia.
      replace (c + 3 - 2) with (c + 1) by lia. done.
    + replace (r - 3 + 3) with r by lia.
      replace (c + 3 - 3) with c by lia. done.
Qed.

(** Four consecutive cells of a 6x7 board lie on a line of the scan. *)
Lemma has_four_line_holds b w :
  is_6x7 b → has_four b w →
  ∃ d r c, in_scan d r c ∧ line_holds b w (line d r c).
Proof.
  intros Hb (r & c & [H|[H|[H|H]]]);
    pose proof (H 0 ltac:(lia)) as H0; pose proof (H 1 ltac:(lia)) as H1;
    pose proof (H 2 ltac:(lia)) as H2; pose proof (H 3 ltac:(lia)) as H3;
    pose proof (cell_at_6x7 _ _ _ _ Hb H0) as B0;
    pose proof (cell_at_6x7 _ _ _ _ Hb H3) as B3;
    unfold ROWS, COLS in B0, B3.
  - exists Horizontal, r, c. split; [simpl; unfold ROWS, COLS; lia|].
    rewrite Nat.add_0_r in H0. unfold line_holds. simpl. by repeat constructor.
  - exists Vertical, r, c. split; [simpl; unfold ROWS, COLS; lia|].
    rewrite Nat.add_0_r in H0. unfold line_holds. simpl. by repeat constructor.
  - exists DownRight, r, c. split; [simpl; unfold ROWS, COLS; lia|].
    rewrite !Nat.add_0_r in H0. unfold line_holds. simpl. by repeat constructor.
  - exists UpRight, (r + 3), c. split; [simpl; unfold ROWS, COLS; lia|].
    unfold line_holds. simpl.
    replace (r + 3 - 1) with (r + 2) by lia.
    replace (r + 3 - 2) with (r + 1) by lia.
    replace (r + 3 - 3) with (r + 0) by lia.
    replace (c + 3 - 3) with c in H3 by lia.
    replace (c + 3 - 2) with (c + 1) in H2 by lia.
    replace (c + 3 - 1) with (c + 2) in H1 by lia.
    replace (c + 3 - 0) with (c + 3) in H0 by lia.
    by repeat constructor.
Qed.

(** C1: for every 6x7 board [b] and piece [p] among "player" and "ai",
    [findWinningCells(b, p)] returns, and its result is non-empty if and
    only if [b] holds four consecutive cells equal to [p] along a row, a
    column, or a diagonal of either direction. *)
Theorem findWinningCells_nonempty_iff_has_four (b : Board) (p : Cell) :
  is_6x7 b → p = Player ∨ p = Ai →
  ∃ cells, findWinningCells b p = Ok cells ∧ (cells ≠ [] ↔ has_four b p).
Proof.
  intros Hb Hp.
  assert (p ≠ Null) as Hnull by (destruct Hp; by subst).
  assert (ROWS ≤ length b) as Hlen by (destruct Hb as [-> _]; lia).
  destruct (findWinningCells_inv b p Hnull Hlen) as (cells & Hcall & Hcells).
  exists cells. split; [done|].
  destruct Hcells as [[-> Hnone]|(d & r & c & Hin & -> & Hl)].
  - split; [done|]. intros Hfour.
    destruct (has_four_line_holds b p Hb Hfour) as (d & r & c & Hin & Hl).
    by destruct (Hnone d r c Hin).
  - split; [intros _; by eapply line_holds_has_four|].
    intros _. by destruct d.
Qed.

Lemma findWinningCells_nonempty_iff_has_four_witness :
  findWinningCells diagonal_win_board Ai = Ok [(5, 0); (4, 1); (3, 2); (2, 3)]
  ∧ has_four diagonal_win_board Ai.
Proof.
  destruct (findWinningCells_nonempty_iff_has_four diagonal_win_board Ai)
    as (cells & Hcall & Hiff).
  - split; [reflexivity|]. by repeat constructor.
  - by right.
  - split; [reflexivity|]. apply Hiff.
    vm_compute in Hcall. injection Hcall as <-. discriminate.
Defined.

(** C7, as the code has it: for every board [b] of at least six rows
    (whatever the length of its rows) and every piece [w],
    [findWinningCells(b, w)] returns the empty list or exactly four
    coordinates, each with [0 <= r < 6], [0 <= c < 7] and [b[r][c] = w];
    and for every board, of any shape, [findWinningCells(b, null)] returns
    the empty list. *)
Theorem findWinningCells_result (b : Board) (w : Cell) :
  findWinningCells b Null = Ok [] ∧
  (ROWS ≤ length b →
   ∃ cells, findWinningCells b w = Ok cells
     ∧ (cells = [] ∨ length cells = 4)
     ∧ Forall (fun p => p.1 < ROWS ∧ p.2 < COLS ∧ cell_at b p.1 p.2 = Some w) cells).
Proof.
  split; [reflexivity|]. intros Hlen.
  destruct (decide (w = Null)) as [->|Hw].
  { exists []. by repeat split; [left|]. }
  destruct (findWinningCells_inv b w Hw Hlen) as (cells & Hcall & Hcells).
  exists cells. split; [done|].
  destruct Hcells as [[-> _]|(d & r & c & Hin & -> & Hl)].
  - split; [by left|constructor].
  - split; [right; apply line_length|].
    unfold line_holds in Hl. rewrite Forall_forall in Hl. apply Forall_forall.
    intros p Hp. destruct (line_in_bounds d r c p Hin Hp). auto.
Qed.

Lemma findWinningCells_result_witness :
  ROWS ≤ length diagonal_win_board ∧
  ∃ cells, findWinningCells diagonal_win_board Ai = Ok cells
     ∧ length cells = 4
     ∧ Forall (fun p => p.1 < ROWS ∧ p.2 < COLS
                        ∧ cell_at diagonal_win_board p.1 p.2 = Some Ai) cells.
Proof.
  assert (ROWS ≤ length diagonal_win_board) as Hrows by (vm_compute; lia).
  split; [exact Hrows|].
  destruct (findWinningCells_result diagonal_win_board Ai) as [_ Hcells].
  destruct (Hcells Hrows) as (cells & Hcall & [Hnone|Hfour] & Hall).
  - exfalso. subst cells. vm_compute in Hcall. discriminate Hcall.
  - exists cells. split; [exact Hcall|]. split; [exact Hfour|exact Hall].
Defined.

(** C7, as stated, fails on a board of five rows: the horizontal scan
    reads row 5, which is [undefined], and indexing it throws. *)
Lemma findWinningCells_five_rows_throws :
  findWinningCells (replicate 5 (replicate 7 Null)) Player = Raise TypeError_undefined
  ∧ ¬ ∃ cells, findWinningCells (replicate 5 (replicate 7 Null)) Player = Ok cells
               ∧ (cells = [] ∨ length cells = 4).
Proof.
  split; [reflexivity|]. intros (cells & H & _). vm_compute in H. discriminate.
Qed.

(** ** Board helpers *)

(** C6: [createEmptyBoard] returns a board of exactly 6 rows, each of
    exactly 7 cells, all [null]; and every cell of any UI board is one of
    the three distinct values [null], "player", "ai". *)
Theorem createEmptyBoard_empty_6x7 :
  length createEmptyBoard = 6 ∧
  Forall (fun row => length row = 7 ∧ Forall (fun cell => cell = Null) row)
         createEmptyBoard ∧
  (∀ b : Board, Forall (Forall (fun cell => cell ∈ [Null; Player; Ai])) b) ∧
  NoDup [Null; Player; Ai].
Proof.
  split; [reflexivity|]. split; [by repeat constructor|]. split.
  - intros b. apply Forall_forall. intros row _. apply Forall_forall.
    intros cell _. rewrite !elem_of_cons. destruct cell; auto.
  - compute_done.
Qed.

(** C8: [convertBoard(apiBoard, humanPlayer)] has as many rows as
    [apiBoard], each of the same length, and its cell at any position is
    the image of the cell of [apiBoard] at that position alone: [null] for
    0, "player" for a non-zero cell equal to [humanPlayer], "ai" for any
    other value. *)
Theorem convertBoard_pointwise (apiBoard : list (list Z)) (humanPlayer : Z) :
  length (convertBoard apiBoard humanPlayer) = length apiBoard ∧
  length <$> convertBoard apiBoard humanPlayer = length <$> apiBoard ∧
  (∀ r c, cell_at (convertBoard apiBoard humanPlayer) r c
          = convertCell humanPlayer <$> (apiBoard !! r ≫= (.!! c))) ∧
  convertCell humanPlayer 0 = Null ∧
  (∀ cell, cell ≠ 0%Z → cell = humanPlayer → convertCell humanPlayer cell = Player) ∧
  (∀ cell, cell ≠ 0%Z → cell ≠ humanPlayer → convertCell humanPlayer cell = Ai).
Proof.
  unfold convertBoard. split; [apply length_fmap|]. split.
  { rewrite <- list_fmap_compose. apply list_fmap_ext. intros i row _. simpl.
    apply length_fmap. }
  split.
  { intros r c. unfold cell_at. rewrite list_lookup_fmap.
    destruct (apiBoard !! r) as [row|]; simpl; [|done].
    apply list_lookup_fmap. }
  unfold convertCell. split; [done|]. split.
  - intros cell H0 Hh. rewrite bool_decide_eq_false_2 by done.
    by rewrite bool_decide_eq_true_2.
  - intros cell H0 Hh. by rewrite !bool_decide_eq_false_2.
Qed.

Lemma convertBoard_pointwise_witness :
  cell_at (convertBoard [[0; 1; 2]%Z] 1) 0 1 = Some Player ∧
  cell_at (convertBoard [[0; 1; 2]%Z] 1) 0 2 = Some Ai.
Proof.
  destruct (convertBoard_pointwise [[0; 1; 2]%Z] 1) as (_ & _ & Hcell & _ & Hp & Ha).
  split.
  - rewrite Hcell. change (Some (convertCell 1 1) = Some Player).
    apply (f_equal Some), Hp; lia.
  - rewrite Hcell. change (Some (convertCell 1 2) = Some Ai).
    apply (f_equal Some), Ha; lia.
Defined.

(** ** The actions *)

Section ActionFacts.
Variable net : Request → FetchOutcome.

Local Opaque findWinningCells convertBoard createEmptyBoard.

Ltac run_eff :=
  unfold makeMove_request, makeMove_status, initGame, initGame_connect,
    initGame_reset, fetch, bind, try_catch, throw, lift, ret,
    setBoard, setCurrentTurn, setStatus, setWinningCells, setIsThinking,
    setErrorMessage, setAiFirst, setSessionRef, modify_state in *;
  simpl in *.

(** Past its guards, [makeMove] marks the hook as thinking and sends
    its request. *)
Lemma makeMove_accepted col h sid :
  accepts_move h col sid →
  makeMove net col h
  = makeMove_request net sid col (setIsThinking true h).1.
Proof.
  intros (Hst & Hturn & Hthink & Hsid & Hne & Htop). unfold makeMove.
  rewrite Hst, Hturn, Hthink, Hsid. simpl.
  rewrite (bool_decide_eq_false_2 (sid = "")) by done. simpl.
  unfold bind, lift. rewrite Htop. simpl. reflexivity.
Qed.

(** A request of [makeMove] is always sent, whatever comes back. *)
Lemma makeMove_request_requests sid col h :
  requests (makeMove_request net sid col h).1
  = (requests h ++ [MoveRequest sid col])%list.
Proof.
  run_eff. destruct (net (MoveRequest sid col)) as [e|[[data|e]|st json]];
    simpl; [| | |destruct (js_detail _); simpl]; try done.
  destruct (Api.game_over data); simpl; [|done].
  repeat case_bool_decide; simpl; try done.
  - by destruct (findWinningCells _ Player).
  - by destruct (findWinningCells _ Ai).
Qed.

(** While the board is disabled, a click does nothing: the [disabled]
    prop of [GameBoard] is the first guard of [makeMove]. *)
Lemma makeMove_disabled col h :
  gameBoard_disabled (state h) = true → makeMove net col h = (h, Ok tt).
Proof.
  intros H. unfold makeMove. unfold gameBoard_disabled in H. by rewrite H.
Qed.

(** C4: when the game is over (status "won", "lost" or "draw"), or it
    is not the player's turn, or a request is in flight, [makeMove(col)]
    does nothing, for every column: no request is sent and the hook
    (board, status, current turn, winning cells and all the rest) is as
    it was. *)
Theorem makeMove_ignored (col : nat) (h : Hook) :
  status (state h) ∈ [won; lost; draw] ∨
  currentTurn (state h) ≠ PlayerTurn ∨
  isThinking (state h) = true →
  makeMove net col h = (h, Ok tt) ∧
  let h' := (makeMove net col h).1 in
  requests h' = requests h ∧
  board (state h') = board (state h) ∧
  status (state h') = status (state h) ∧
  currentTurn (state h') = currentTurn (state h) ∧
  winningCells (state h') = winningCells (state h).
Proof.
  intros H.
  assert (makeMove net col h = (h, Ok tt)) as ->; [|done].
  apply makeMove_disabled. unfold gameBoard_disabled.
  destruct H as [H|[H|H]].
  - rewrite !elem_of_cons, elem_of_nil in H.
    rewrite (bool_decide_eq_false_2 (status (state h) = playing)); [done|].
    intros Heq. rewrite Heq in H. destruct H as [H|[H|[H|[]]]]; discriminate.
  - rewrite (bool_decide_eq_false_2 (currentTurn (state h) = PlayerTurn)) by done.
    by rewrite orb_true_r.
  - rewrite H. by rewrite orb_true_r.
Qed.

(** C2: a move is available exactly in the columns whose top cell is
    free.  [makeMove(col)] sends a request only when [board[0][col]] is
    [null]; when [board[0][col]] is anything else it returns having sent
    nothing and changed nothing; when its other guards pass and
    [board[0][col]] is [null] it does send the move; and the drop button
    of column [col] is disabled whenever [board[0][col]] holds a piece,
    and enabled only when [board[0][col]] is [null]. *)
Theorem makeMove_needs_free_top (col : nat) (h : Hook) :
  let top := index2 (board (state h)) 0 col in
  let h' := (makeMove net col h).1 in
  (requests h' ≠ requests h → top = Ok (Some Null)) ∧
  (∀ v, top = Ok v → v ≠ Some Null → makeMove net col h = (h, Ok tt)) ∧
  (top ≠ Ok (Some Null) → h' = h) ∧
  (∀ sid, accepts_move h col sid →
     requests h' = (requests h ++ [MoveRequest sid col])%list) ∧
  (∀ disabled cell, cell_at (board (state h)) 0 col = Some cell → cell ≠ Null →
     dropButton_disabled (board (state h)) disabled col = Ok true) ∧
  (∀ disabled, dropButton_disabled (board (state h)) disabled col = Ok false →
     disabled = false ∧ top = Ok (Some Null)).
Proof.
  simpl.
  assert (index2 (board (state h)) 0 col ≠ Ok (Some Null) →
          (makeMove net col h).1 = h ∧
          ∀ v, index2 (board (state h)) 0 col = Ok v →
               makeMove net col h = (h, Ok tt)) as Hskip.
  { intros Htop. unfold makeMove.
    destruct (_ || _ || _); [done|].
    destruct (Session.session_id (sessionRef h)) as [sid|]; [|done].
    destruct (negb (truthy (Some sid))); [done|].
    unfold bind, lift, ret.
    destruct (index2 (board (state h)) 0 col) as [v|e]; simpl; [|done].
    rewrite bool_decide_eq_false_2 by congruence. simpl.
    split; [done|]. by intros _ _. }
  split; [|split; [|split; [|split; [|split]]]].
  - intros Hreq.
    destruct (index2 (board (state h)) 0 col) as [v|e] eqn:Htop.
    + destruct (decide (v = Some Null)) as [->|Hv]; [done|].
      destruct Hskip as [Heq _]; [congruence|]. by rewrite Heq in Hreq.
    + destruct Hskip as [Heq _]; [done|]. by rewrite Heq in Hreq.
  - intros v Htop Hv. destruct Hskip as [_ Hret]; [rewrite Htop; congruence|].
    by apply (Hret v).
  - intros Htop. by apply Hskip.
  - intros sid Hacc. rewrite (makeMove_accepted col h sid Hacc).
    by rewrite makeMove_request_requests.
  - intros disabled cell Hcell Hocc. unfold dropButton_disabled.
    destruct disabled; [done|].
    unfold cell_at in Hcell. unfold index2.
    destruct (board (state h) !! 0) as [row|]; simpl in Hcell; [|done].
    rewrite Hcell. rewrite bool_decide_eq_false_2 by congruence. done.
  - intros disabled. unfold dropButton_disabled.
    destruct disabled; [discriminate|].
    destruct (index2 (board (state h)) 0 col) as [v|e]; [|discriminate].
    intros Hen. injection Hen as Hen. apply negb_false_iff in Hen.
    apply bool_decide_eq_true in Hen. by subst.
Qed.

(** C3: when a move is answered by a successful response [data], then,
    if [data.game_over], the status becomes "draw" when [data.winner] is
    3, "won" when it is (not 3 and) the human player's number as the
    response gives it, and "lost" otherwise; if not [data.game_over], the
    status stays "playing" and, of status, turn and winning cells, only the
    turn is set, to the owner of [data.current_player] (the board is the
    converted [data.board] in both cases, and the request is no longer
    in flight). *)
Theorem makeMove_response_status (col : nat) (h : Hook) (sid : string)
    (data : Api.GameStateResponse) :
  accepts_move h col sid →
  net (MoveRequest sid col) = Resolved (HttpOk (Ok data)) →
  let s' := state (makeMove net col h).1 in
  (Api.game_over data = true →
     status s' ∈ [draw; won; lost] ∧
     (Api.winner data = Some 3%Z → status s' = draw) ∧
     (Api.winner data ≠ Some 3%Z →
      Api.winner data = Some (Api.human_player data) → status s' = won) ∧
     (Api.winner data ≠ Some 3%Z →
      Api.winner data ≠ Some (Api.human_player data) → status s' = lost)) ∧
  (Api.game_over data = false →
     status s' = playing ∧
     winningCells s' = winningCells (state h) ∧
     currentTurn s'
     = (if bool_decide (Api.current_player data = Api.human_player data)
        then PlayerTurn else AiTurn) ∧
     errorMessage s' = errorMessage (state h) ∧
     aiFirst s' = aiFirst (state h) ∧
     isThinking s' = false) ∧
  board s' = convertBoard (Api.board data) (Api.human_player data).
Proof.
  intros Hacc Hnet. rewrite (makeMove_accepted col h sid Hacc).
  destruct Hacc as (Hst & _). run_eff. rewrite Hnet. simpl.
  destruct (Api.game_over data); simpl.
  - split; [|split; [done|]].
    + intros _. rewrite !elem_of_cons.
      repeat case_bool_decide; simpl;
        try destruct (findWinningCells _ _); simpl; try done;
        repeat split; try done; try tauto.
    + repeat case_bool_decide; simpl;
        try destruct (findWinningCells _ _); simpl; try done.
  - split; [done|]. split; [|done]. intros _. done.
Qed.

(** C5: when the request of a move fails, by a response that is not
    ok or by a rejected [fetch], the game is as it was (board, status,
    current turn and winning cells keep their values), [errorMessage]
    holds a string and [isThinking] ends false. *)
Theorem makeMove_failure_keeps_game (col : nat) (h : Hook) (sid : string) :
  accepts_move h col sid →
  (∃ e, net (MoveRequest sid col) = Rejected e) ∨
  (∃ statusText json,
      net (MoveRequest sid col) = Resolved (HttpFail statusText json)) →
  let s' := state (makeMove net col h).1 in
  board s' = board (state h) ∧
  status s' = status (state h) ∧
  currentTurn s' = currentTurn (state h) ∧
  winningCells s' = winningCells (state h) ∧
  (∃ message, errorMessage s' = Some message) ∧
  isThinking s' = false.
Proof.
  intros Hacc Hnet. rewrite (makeMove_accepted col h sid Hacc). run_eff.
  destruct Hnet as [[e Hnet]|(statusText & json & Hnet)]; rewrite Hnet; simpl;
    try (destruct (js_detail _); simpl); repeat split; eauto.
Qed.

(** C9: [resetGame] is [initGame]; and [initGame], before it sends
    its request, has set the board to the empty 6x7 board, the winning
    cells to the empty list, the error message to [null] and [aiFirst]
    to false.  The request is the one thing sent, after that. *)
Theorem resetGame_restarts (h : Hook) :
  let h0 := (initGame_reset h).1 in
  resetGame net h = initGame net h ∧
  initGame net h = initGame_connect net h0 ∧
  requests h0 = requests h ∧
  requests (resetGame net h).1 = (requests h ++ [InitRequest])%list ∧
  board (state h0) = replicate 6 (replicate 7 Null) ∧
  winningCells (state h0) = [] ∧
  errorMessage (state h0) = None ∧
  aiFirst (state h0) = false.
Proof.
  simpl. split; [done|]. split; [done|]. split; [done|].
  split; [|done]. unfold resetGame. run_eff.
  by destruct (net InitRequest) as [e|[[data|e]|st json]].
Qed.
End ActionFacts.

(** ** The sample runs *)

Lemma started_hook_accepts : accepts_move started_hook 3 "s1".
Proof. by repeat split. Qed.

Example started_hook_state :
  state started_hook
  = {| board := createEmptyBoard; currentTurn := PlayerTurn; status := playing;
       winningCells := []; isThinking := false; errorMessage := None;
       aiFirst := false |}.
Proof. reflexivity. Qed.

Example sample_move :
  makeMove sample_backend 3 started_hook
  = ({| state :=
          {| board := replicate 5 (replicate 7 Null)
                      ++ [[Null; Null; Null; Player; Null; Null; Null]];
             currentTurn := PlayerTurn; status := playing;
             winningCells := []; isThinking := false; errorMessage := None;
             aiFirst := false |};
        sessionRef := sessionRef started_hook;
        requests := [InitRequest; MoveRequest "s1" 3] |}, Ok tt).
Proof. reflexivity. Qed.

Example winning_move :
  state (makeMove (finished_backend 1) 3 started_hook).1
  = {| board := replicate 5 (replicate 7 Null)
                ++ [[Player; Player; Player; Player; Ai; Ai; Ai]];
       currentTurn := PlayerTurn; status := won;
       winningCells := [(5, 0); (5, 1); (5, 2); (5, 3)];
       isThinking := false; errorMessage := None; aiFirst := false |}.
Proof. reflexivity. Qed.

Lemma makeMove_ignored_witness :
  let h := (makeMove (finished_backend 1) 3 started_hook).1 in
  makeMove sample_backend 3 h = (h, Ok tt).
Proof.
  apply (makeMove_ignored sample_backend 3
           (makeMove (finished_backend 1) 3 started_hook).1).
  left. vm_compute. constructor.
Defined.

Lemma makeMove_needs_free_top_witness :
  requests (makeMove sample_backend 3 started_hook).1
  = [InitRequest; MoveRequest "s1" 3].
Proof.
  destruct (makeMove_needs_free_top sample_backend 3 started_hook)
    as (_ & _ & _ & Hsend & _ & _).
  apply (Hsend "s1"). repeat split; try reflexivity. discriminate.
Defined.

Lemma makeMove_response_status_witness :
  status (state (makeMove (finished_backend 1) 3 started_hook).1) = won ∧
  status (state (makeMove (finished_backend 2) 3 started_hook).1) = lost ∧
  status (state (makeMove (finished_backend 3) 3 started_hook).1) = draw.
Proof.
  assert (accepts_move started_hook 3 "s1") as Hacc
    by (repeat split; try reflexivity; discriminate).
  split; [|split].
  - destruct (makeMove_response_status (finished_backend 1) 3 started_hook "s1"
                _ Hacc eq_refl) as [Hover _].
    destruct (Hover eq_refl) as (_ & _ & Hwon & _).
    apply Hwon; [discriminate|reflexivity].
  - destruct (makeMove_response_status (finished_backend 2) 3 started_hook "s1"
                _ Hacc eq_refl) as [Hover _].
    destruct (Hover eq_refl) as (_ & _ & _ & Hlost).
    apply Hlost; discriminate.
  - destruct (makeMove_response_status (finished_backend 3) 3 started_hook "s1"
                _ Hacc eq_refl) as [Hover _].
    destruct (Hover eq_refl) as (_ & Hdraw & _).
    apply Hdraw. reflexivity.
Defined.

Lemma makeMove_failure_keeps_game_witness :
  let s' := state (makeMove unreachable_backend 3 started_hook).1 in
  board s' = board (state started_hook) ∧
  status s' = status (state started_hook) ∧
  currentTurn s' = currentTurn (state started_hook) ∧
  winningCells s' = winningCells (state started_hook) ∧
  (∃ message, errorMessage s' = Some message) ∧
  isThinking s' = false.
Proof.
  apply (makeMove_failure_keeps_game unreachable_backend 3 started_hook "s1").
  - repeat split; try reflexivity. discriminate.
  - left. exists (JsError "Failed to fetch"). reflexivity.
Defined.

Example refused_move :
  state (makeMove refusing_backend 3 started_hook).1
  = {| board := createEmptyBoard; currentTurn := PlayerTurn; status := playing;
       winningCells := []; isThinking := false;
       errorMessage := Some "Invalid move"; aiFirst := false |}.
Proof. reflexivity. Qed.

(** ** The exploration schedule *)

Section Epsilon.
Local Open Scope Q_scope.

Variables epsilon_start epsilon_end : Q.
Variable decay_steps : nat.

Lemma decay_fraction_mono (t t' : nat) :
  (t ≤ t')%nat →
  inject_Z (Z.of_nat t) / inject_Z (Z.of_nat decay_steps)
  <= inject_Z (Z.of_nat t') / inject_Z (Z.of_nat decay_steps).
Proof.
  intros Ht. unfold Qdiv. apply Qmult_le_compat_r.
  - rewrite <- Zle_Qle. lia.
  - apply Qinv_le_0_compat. replace 0 with (inject_Z 0) by reflexivity.
    rewrite <- Zle_Qle. lia.
Qed.

(** C10, as the schedule has it: over a positive number of decay
    steps, the schedule is linear and clamped below by [epsilon_end] and
    reaches [epsilon_end] at [decay_steps]; and when the schedule decays
    ([epsilon_end <= epsilon_start]) it starts at [epsilon_start] and never
    increases. *)
Theorem epsilon_linear_clamped :
  (0 < decay_steps)%nat →
  (∀ t : nat,
     epsilon epsilon_start epsilon_end decay_steps t
     == Qmax epsilon_end
          (epsilon_start
           - inject_Z (Z.of_nat t) / inject_Z (Z.of_nat decay_steps)
             * (epsilon_start - epsilon_end))) ∧
  epsilon epsilon_start epsilon_end decay_steps decay_steps == epsilon_end ∧
  (epsilon_end <= epsilon_start →
   epsilon epsilon_start epsilon_end decay_steps 0 == epsilon_start ∧
   ∀ t t' : nat,
     (t ≤ t')%nat →
     epsilon epsilon_start epsilon_end decay_steps t'
     <= epsilon epsilon_start epsilon_end decay_steps t).
Proof.
  intros decay_positive.
  unfold epsilon. split; [reflexivity|]. split; [|intros start_above_end; split].
  - assert (¬ inject_Z (Z.of_nat decay_steps) == 0) as Hnz.
    { intros H.
      assert (inject_Z 0 < inject_Z (Z.of_nat decay_steps)) as Hpos
        by (rewrite <- Zlt_Qlt; lia).
      rewrite H in Hpos. by apply Qlt_irrefl in Hpos. }
    assert (epsilon_start
            - inject_Z (Z.of_nat decay_steps) / inject_Z (Z.of_nat decay_steps)
              * (epsilon_start - epsilon_end) == epsilon_end) as ->
      by (by field).
    apply Q.max_id.
  - assert (epsilon_start
            - inject_Z (Z.of_nat 0) / inject_Z (Z.of_nat decay_steps)
              * (epsilon_start - epsilon_end) == epsilon_start) as ->
      by (unfold Qdiv; simpl; ring).
    by apply Q.max_r.
  - intros t t' Ht. apply Q.max_le_compat_l.
    pose proof (decay_fraction_mono t t' Ht) as Hfrac.
    assert (0 <= epsilon_start - epsilon_end) as Hgap by lra.
    pose proof (Qmult_le_compat_r _ _ _ Hfrac Hgap). lra.
Qed.
End Epsilon.

Lemma epsilon_linear_clamped_witness :
  (epsilon 1 (1 # 20) 1000 0 == 1)%Q ∧
  (epsilon 1 (1 # 20) 1000 1000 == 1 # 20)%Q ∧
  (epsilon 1 (1 # 20) 1000 500 <= epsilon 1 (1 # 20) 1000 250)%Q.
Proof.
  assert ((1 # 20) <= 1)%Q as Hle by (unfold Qle; simpl; lia).
  assert (0 < 1000) as Hpos by lia.
  destruct (epsilon_linear_clamped 1 (1 # 20) 1000 Hpos)
    as (_ & Hend & Hdecay).
  destruct (Hdecay Hle) as [Hstart Hmono].
  split; [exact Hstart|]. split; [exact Hend|]. apply Hmono. lia.
Defined.

(** C10, as stated, fails for a schedule that does not decay and for
    one without decay steps.  With [epsilon_start = 0] below
    [epsilon_end = 1] the schedule does not start at [epsilon_start] (the
    clamp holds it at 1), and over one decay step it rises from 1 at step 1
    to 2 at step 2; with [decay_steps = 0] the schedule from 1 to 0 is still
    1 at step [decay_steps]. *)
Lemma epsilon_claim_fails :
  ¬ (epsilon 0 1 10 0 == 0)%Q ∧
  ¬ (epsilon 1 0 0 0 == 0)%Q ∧
  ¬ (epsilon 0 1 1 2 <= epsilon 0 1 1 1)%Q.
Proof.
  split; [|split].
  - vm_compute. intros H. discriminate H.
  - vm_compute. intros H. discriminate H.
  - vm_compute. intros H. apply H. reflexivity.
Qed.


(** * Further properties of the code *)

(** ** More on the scan *)

Lemma for_range_ext {A} (body body' : nat → completion A) lo hi :
  (∀ j, lo ≤ j < hi → body j = body' j) →
  for_range lo hi body = for_range lo hi body'.
Proof.
  unfold for_range. intros Hext.
  assert (∀ n i, lo ≤ i → i + n ≤ Nat.max lo hi →
                 for_loop i n body = for_loop i n body') as Hloop.
  { induction n as [|n IH]; intros i Hlo Hhi; simpl; [done|].
    rewrite Hext by lia. destruct (body' i); [|done|done].
    apply IH; lia. }
  apply Hloop; lia.
Qed.

Lemma seq_stmt_cong {A} (s1 s1' s2 s2' : completion A) :
  s1 = s1' → s2 = s2' → s1 ;;; s2 = s1' ;;; s2'.
Proof. by intros -> ->. Qed.

(** Inside the 6x7 window, a cell test does not see what lies outside. *)
Lemma cell_is_window b w p :
  p.1 < ROWS → p.2 < COLS →
  cell_is (take ROWS (take COLS <$> b)) w p = cell_is b w p.
Proof.
  intros Hr Hc. unfold cell_is, index2.
  rewrite lookup_take_lt by done. rewrite list_lookup_fmap.
  destruct (b !! p.1) as [row|]; simpl; [|done].
  by rewrite lookup_take_lt.
Qed.

(** X1: [findWinningCells] reads nothing outside the first 6 rows and the
    first 7 columns: cutting the board down to that window changes neither
    the cells it returns nor whether it throws. *)
Theorem findWinningCells_window (b : Board) (w : Cell) :
  findWinningCells (take ROWS (take COLS <$> b)) w = findWinningCells b w.
Proof.
  unfold findWinningCells, findWinningCells_body. f_equal.
  case_bool_decide; [done|].
  repeat apply seq_stmt_cong; try done;
    (apply for_range_ext; intros row Hrow; apply for_range_ext; intros col Hcol;
     rewrite !cell_is_window by (simpl; unfold ROWS, COLS in *; lia); done).
Qed.

Lemma check_line_missing_row b w p1 p2 p3 p4 :
  length b ≤ p1.1 → check_line b w p1 p2 p3 p4 = Throw TypeError_undefined.
Proof.
  intros Hlen. unfold check_line, cell_is, index2.
  by rewrite (lookup_ge_None_2 b p1.1 Hlen).
Qed.

Lemma check_line_throw b w p1 p2 p3 p4 e :
  check_line b w p1 p2 p3 p4 = Throw e → e = TypeError_undefined.
Proof.
  unfold check_line, cell_is, index2.
  repeat (match goal with
          | |- context [?l !! ?i] =>
              match type of l with Board => destruct (l !! i) end
          end; simpl; try case_bool_decide; simpl); congruence.
Qed.

(** The horizontal scan, which runs first. *)
Lemma horizontal_scan_inv b w :
  w ≠ Null →
  match findWinningCells b w with
  | Ok cells =>
      (∃ r c, in_scan Horizontal r c ∧ cells = line Horizontal r c
              ∧ line_holds b w cells)
      ∨ (ROWS ≤ length b ∧
         ∀ r c, in_scan Horizontal r c → ¬ line_holds b w (line Horizontal r c))
  | Raise e => e = TypeError_undefined ∧ length b < ROWS
  end.
Proof.
  intros Hw. pose proof (findWinningCells_body_inv b w Hw) as Hbody.
  unfold findWinningCells. unfold findWinningCells_body in *.
  rewrite bool_decide_eq_false_2 in * by done.
  match goal with
  | |- context [for_range 0 ROWS
                  (fun row => for_range 0 (COLS - 3) (fun col => @?f row col))] =>
      pose proof (scan_inv f 0 ROWS 0 (COLS - 3)) as Hscan;
      pose proof (scan_line_inv b w Horizontal 0 ROWS 0 (COLS - 3) f
                    ltac:(simpl; unfold ROWS, COLS; lia)) as Hline
  end.
  cbv beta in Hscan, Hline.
  assert (match for_range 0 ROWS (fun row => for_range 0 (COLS - 3)
            (fun col => check_line b w (row, col) (row, col + 1)
                                   (row, col + 2) (row, col + 3))) with
          | Normal => ∀ r c, in_scan Horizontal r c →
                             ¬ line_holds b w (line Horizontal r c)
          | Return cells => ∃ r c, in_scan Horizontal r c
                                   ∧ cells = line Horizontal r c
                                   ∧ line_holds b w cells
          | Throw _ => length b < ROWS
          end) as Hfirst.
  { apply Hline. intros r c. by eexists _, _, _, _. }
  clear Hline. unfold check_line in Hfirst.
  destruct (for_range 0 ROWS _) as [|cells|e] eqn:Hloop; cbn [seq_stmt call] in *.
  - (* no horizontal line, and every row was read *)
    assert (ROWS ≤ length b) as Hlen.
    { destruct (decide (ROWS ≤ length b)) as [|Hshort]; [done|exfalso].
      assert (0 ≤ length b < ROWS) as Hr by lia.
      assert (0 ≤ 0 < COLS - 3) as Hc by (unfold COLS; lia).
      specialize (Hscan (length b) 0 Hr Hc).
      pose proof (check_line_missing_row b w (length b, 0) (length b, 0 + 1)
                    (length b, 0 + 2) (length b, 0 + 3) ltac:(simpl; lia)) as Hthrow.
      unfold check_line in Hthrow. congruence. }
    destruct (_ ;;; _ ;;; _ ;;; _) as [|cells|e]; simpl; [done| |simpl in Hbody; lia].
    by right.
  - by left.
  - destruct Hscan as (r & c & _ & _ & Hthrow).
    apply (check_line_throw b w (r, c) (r, c + 1) (r, c + 2) (r, c + 3)) in Hthrow.
    done.
Qed.

Lemma line_holds_horizontal b w r c :
  line_holds b w (line Horizontal r c) ↔ four_horizontal b w r c.
Proof.
  unfold line_holds, four_horizontal. simpl. rewrite !Forall_cons. simpl. split.
  - intros (H0 & H1 & H2 & H3 & _) k Hk.
    destruct k as [|[|[|[|k]]]]; [rewrite Nat.add_0_r| | | |lia]; done.
  - intros H. pose proof (H 0 ltac:(lia)) as H0. rewrite Nat.add_0_r in H0.
    pose proof (H 1 ltac:(lia)). pose proof (H 2 ltac:(lia)).
    pose proof (H 3 ltac:(lia)). by repeat split.
Qed.

(** X2: a horizontal four wins the scan.  On a 6x7 board that holds
    four consecutive cells of the piece [w] in some row, [findWinningCells]
    returns four cells of one row, whatever vertical or diagonal fours the
    board holds as well. *)
Theorem findWinningCells_horizontal_first (b : Board) (w : Cell) :
  is_6x7 b → w ≠ Null →
  (∃ r c, four_horizontal b w r c) →
  ∃ r c, findWinningCells b w = Ok [(r, c); (r, c + 1); (r, c + 2); (r, c + 3)]
         ∧ four_horizontal b w r c.
Proof.
  intros Hb Hw (r & c & Hfour).
  pose proof (horizontal_scan_inv b w Hw) as H.
  destruct (findWinningCells b w) as [cells|e].
  - destruct H as [(r' & c' & _ & -> & Hl)|[_ Hnone]].
    + exists r', c'. split; [done|]. by apply line_holds_horizontal.
    + exfalso. apply (Hnone r c); [|by apply line_holds_horizontal].
      pose proof (cell_at_6x7 _ _ _ _ Hb (Hfour 0 ltac:(lia))) as B0.
      pose proof (cell_at_6x7 _ _ _ _ Hb (Hfour 3 ltac:(lia))) as B3.
      simpl. unfold ROWS, COLS in *. lia.
  - destruct H as [_ Hlen]. destruct Hb as [Hrows _]. lia.
Qed.

Lemma findWinningCells_horizontal_first_witness :
  ∃ r c, findWinningCells
           (replicate 5 (replicate 7 Null) ++ [[Ai; Player; Player; Player; Player; Ai; Ai]])
           Player
         = Ok [(r, c); (r, c + 1); (r, c + 2); (r, c + 3)]
         ∧ four_horizontal
             (replicate 5 (replicate 7 Null)
              ++ [[Ai; Player; Player; Player; Player; Ai; Ai]]) Player r c.
Proof.
  apply findWinningCells_horizontal_first.
  - split; [reflexivity|]. by repeat constructor.
  - discriminate.
  - exists 5, 1. intros k Hk. destruct k as [|[|[|[|k]]]]; [reflexivity..|lia].
Defined.

(** X3: a board of fewer than six rows.  For a piece [w],
    [findWinningCells] either finds a horizontal four in one of the rows
    the board has and returns it, or throws the [TypeError] of reading a
    missing row; it never returns the empty list. *)
Theorem findWinningCells_short_board (b : Board) (w : Cell) :
  length b < ROWS → w ≠ Null →
  findWinningCells b w = Raise TypeError_undefined
  ∨ ∃ r c, r < length b ∧
           findWinningCells b w = Ok [(r, c); (r, c + 1); (r, c + 2); (r, c + 3)]
           ∧ four_horizontal b w r c.
Proof.
  intros Hlen Hw. pose proof (horizontal_scan_inv b w Hw) as H.
  destruct (findWinningCells b w) as [cells|e].
  - right. destruct H as [(r & c & _ & -> & Hl)|[Hrows _]]; [|lia].
    apply line_holds_horizontal in Hl as Hfour. exists r, c.
    split; [|done]. pose proof (Hfour 0 ltac:(lia)) as H0.
    unfold cell_at in H0. destruct (b !! r) as [row|] eqn:Hrow; [|done].
    by eapply lookup_lt_Some.
  - left. by destruct H as [-> _].
Qed.

Lemma findWinningCells_short_board_witness :
  findWinningCells [[Player; Player; Player; Player]] Player
  = Raise TypeError_undefined
  ∨ ∃ r c, r < length [[Player; Player; Player; Player]] ∧
           findWinningCells [[Player; Player; Player; Player]] Player
           = Ok [(r, c); (r, c + 1); (r, c + 2); (r, c + 3)]
           ∧ four_horizontal [[Player; Player; Player; Player]] Player r c.
Proof.
  apply findWinningCells_short_board; [vm_compute; lia|discriminate].
Defined.

Lemma line_NoDup d r c : NoDup (line d r c).
Proof.
  destruct d; simpl; repeat (apply NoDup_cons; split);
    rewrite ?elem_of_cons, ?elem_of_nil; try apply NoDup_nil_2;
    intros H; repeat destruct H as [H|H]; try done;
    injection H; intros; lia.
Qed.

(** X4: the cells [findWinningCells] returns are pairwise distinct, on
    any board and for any piece. *)
Theorem findWinningCells_NoDup (b : Board) (w : Cell) (cells : list Coord) :
  findWinningCells b w = Ok cells → NoDup cells.
Proof.
  destruct (decide (w = Null)) as [->|Hw].
  { intros [= <-]. apply NoDup_nil_2. }
  unfold findWinningCells. pose proof (findWinningCells_body_inv b w Hw) as H.
  destruct (findWinningCells_body b w) as [|cells'|e]; [done| |done].
  intros [= <-]. destruct H as [[-> _]|(d & r & c & _ & -> & _)].
  - apply NoDup_nil_2.
  - apply line_NoDup.
Qed.

Lemma findWinningCells_NoDup_witness :
  NoDup [(2, 0); (3, 0); (4, 0); (5, 0)].
Proof.
  apply (findWinningCells_NoDup
           (replicate 2 (replicate 7 Null) ++ replicate 4 (Ai :: replicate 6 Null)) Ai).
  reflexivity.
Defined.

(** ** More on the conversion *)

(** X5: the conversion is symmetric in the two players.  On a board
    whose cells are 0 or one of two distinct non-zero player numbers,
    converting for the other player gives the same board with "player" and
    "ai" exchanged. *)
Theorem convertBoard_perspective (apiBoard : list (list Z)) (p q : Z) :
  p ≠ 0%Z → q ≠ 0%Z → p ≠ q →
  Forall (Forall (fun cell => cell = 0%Z ∨ cell = p ∨ cell = q)) apiBoard →
  convertBoard apiBoard q
  = (fun row : list Cell => swapCell <$> row) <$> convertBoard apiBoard p.
Proof.
  intros Hp Hq Hpq Hcells. unfold convertBoard.
  rewrite <- list_fmap_compose. apply Forall_fmap_ext.
  eapply Forall_impl; [exact Hcells|]. intros row Hrow. simpl.
  rewrite <- list_fmap_compose. apply Forall_fmap_ext.
  eapply Forall_impl; [exact Hrow|]. intros cell Hcell. simpl.
  unfold convertCell. destruct Hcell as [-> | [-> | ->] ].
  - by rewrite !bool_decide_eq_true_2.
  - rewrite !(bool_decide_eq_false_2 (p = 0%Z)) by done.
    rewrite (bool_decide_eq_false_2 (p = q)) by done.
    by rewrite (bool_decide_eq_true_2 (p = p)).
  - rewrite !(bool_decide_eq_false_2 (q = 0%Z)) by done.
    rewrite (bool_decide_eq_false_2 (q = p)) by done.
    by rewrite (bool_decide_eq_true_2 (q = q)).
Qed.

Lemma convertBoard_perspective_witness :
  convertBoard [[0; 1; 2]; [2; 2; 1]]%Z 2
  = (fun row : list Cell => swapCell <$> row)
    <$> convertBoard [[0; 1; 2]; [2; 2; 1]]%Z 1.
Proof.
  apply convertBoard_perspective; try lia.
  repeat constructor; lia.
Defined.

(** A converted board shows a piece exactly where the API board has a
    non-zero cell. *)
Lemma convertBoard_some_piece (apiBoard : list (list Z)) (humanPlayer : Z) :
  existsb (fun row => existsb (fun cell => negb (bool_decide (cell = 0%Z))) row)
          apiBoard = true
  ↔ ∃ r c v, cell_at (convertBoard apiBoard humanPlayer) r c = Some v ∧ v ≠ Null.
Proof.
  rewrite existsb_exists. split.
  - intros (row & Hrow & Hex). apply existsb_exists in Hex as (cell & Hcell & Hnz).
    apply list_elem_of_In, list_elem_of_lookup in Hrow as [r Hr].
    apply list_elem_of_In, list_elem_of_lookup in Hcell as [c Hc].
    exists r, c, (convertCell humanPlayer cell). split.
    + unfold cell_at, convertBoard. rewrite list_lookup_fmap, Hr. simpl.
      by rewrite list_lookup_fmap, Hc.
    + apply negb_true_iff, bool_decide_eq_false in Hnz. unfold convertCell.
      rewrite bool_decide_eq_false_2 by done. by case_bool_decide.
  - intros (r & c & v & Hcell & Hv). unfold cell_at, convertBoard in Hcell.
    rewrite list_lookup_fmap in Hcell.
    destruct (apiBoard !! r) as [row|] eqn:Hr; simpl in Hcell; [|done].
    rewrite list_lookup_fmap in Hcell.
    destruct (row !! c) as [cell|] eqn:Hc; simpl in Hcell; [|done].
    exists row. split; [by eapply list_elem_of_In, list_elem_of_lookup_2|].
    apply existsb_exists. exists cell.
    split; [by eapply list_elem_of_In, list_elem_of_lookup_2|].
    apply negb_true_iff, bool_decide_eq_false. intros ->.
    injection Hcell as <-. by apply Hv.
Qed.

Lemma convertBoard_6x7 (apiBoard : list (list Z)) (humanPlayer : Z) :
  length apiBoard = ROWS → Forall (fun row => length row = COLS) apiBoard →
  is_6x7 (convertBoard apiBoard humanPlayer).
Proof.
  intros Hrows Hcols. unfold is_6x7, convertBoard. split.
  - by rewrite length_fmap.
  - apply Forall_fmap. eapply Forall_impl; [exact Hcols|].
    intros row Hrow. simpl. by rewrite length_fmap.
Qed.

(** Whatever the shape of the board, the cells returned for a piece
    hold that piece. *)
Lemma findWinningCells_Ok_holds b w cells :
  w ≠ Null → findWinningCells b w = Ok cells →
  (cells = [] ∨ length cells = 4) ∧ line_holds b w cells.
Proof.
  intros Hw. unfold findWinningCells.
  pose proof (findWinningCells_body_inv b w Hw) as H.
  destruct (findWinningCells_body b w) as [|cells'|e]; [done| |done].
  intros [= <-]. destruct H as [[-> _]|(d & r & c & _ & -> & Hl)].
  - split; [by left|constructor].
  - split; [right; apply line_length|done].
Qed.

(** ** More on the actions *)

Section MoreActionFacts.
Variable net : Request → FetchOutcome.

Local Opaque findWinningCells convertBoard createEmptyBoard.

Ltac run_eff :=
  unfold makeMove_request, makeMove_status, initGame, initGame_connect,
    initGame_reset, fetch, bind, try_catch, throw, lift, ret,
    setBoard, setCurrentTurn, setStatus, setWinningCells, setIsThinking,
    setErrorMessage, setAiFirst, setSessionRef, modify_state in *;
  simpl in *.

(** The three ways a call of [makeMove] can go. *)
Lemma makeMove_cases col h :
  makeMove net col h = (h, Ok tt)
  ∨ makeMove net col h = (h, Raise TypeError_undefined)
  ∨ ∃ sid, accepts_move h col sid ∧
           makeMove net col h
           = makeMove_request net sid col (setIsThinking true h).1.
Proof.
  destruct (gameBoard_disabled (state h)) eqn:Hdis.
  { left. by apply makeMove_disabled. }
  unfold gameBoard_disabled in Hdis.
  apply orb_false_iff in Hdis as [Hdis Hthink].
  apply orb_false_iff in Hdis as [Hst Hturn].
  apply negb_false_iff, bool_decide_eq_true in Hst, Hturn.
  destruct (Session.session_id (sessionRef h)) as [sid|] eqn:Hsid;
    [|left; unfold makeMove; by rewrite Hst, Hturn, Hthink, Hsid].
  destruct (decide (sid = "")) as [->|Hne];
    [left; unfold makeMove; by rewrite Hst, Hturn, Hthink, Hsid|].
  destruct (index2 (board (state h)) 0 col) as [top|e] eqn:Htop.
  - destruct (decide (top = Some Null)) as [->|Hfull].
    + right; right. exists sid.
      assert (accepts_move h col sid) as Hacc by done.
      split; [done|]. by apply makeMove_accepted.
    + left. unfold makeMove. rewrite Hst, Hturn, Hthink, Hsid. simpl.
      rewrite (bool_decide_eq_false_2 (sid = "")) by done. simpl.
      unfold bind, lift, ret. rewrite Htop.
      by rewrite bool_decide_eq_false_2.
  - right; left. unfold makeMove. rewrite Hst, Hturn, Hthink, Hsid. simpl.
    rewrite (bool_decide_eq_false_2 (sid = "")) by done. simpl.
    unfold bind, lift. rewrite Htop. unfold index2 in Htop.
    destruct (board (state h) !! 0); [done|]. by injection Htop as <-.
Qed.

(** X6: whatever comes back, [makeMove] leaves the session, [aiFirst]
    and [isThinking] as it found them, and never clears an error message:
    a message shown before the move is still shown after it (only
    [initGame] sets it back to [null]). *)
Theorem makeMove_frame (col : nat) (h : Hook) :
  let h' := (makeMove net col h).1 in
  sessionRef h' = sessionRef h ∧
  aiFirst (state h') = aiFirst (state h) ∧
  isThinking (state h') = isThinking (state h) ∧
  (errorMessage (state h') = errorMessage (state h)
   ∨ ∃ message, errorMessage (state h') = Some message).
Proof.
  simpl. destruct (makeMove_cases col h) as [->|[->|(sid & Hacc & ->)]];
    [by auto..|].
  destruct Hacc as (_ & _ & Hthink & _). run_eff.
  destruct (net (MoveRequest sid col)) as [e|[[data|e]|st json]]; simpl;
    [| | |destruct (js_detail _); simpl]; eauto 6.
  destruct (Api.game_over data); simpl; [|by auto].
  repeat case_bool_decide; simpl; [by auto| |];
    destruct (findWinningCells _ _); simpl; eauto 6.
Qed.

(** X7: a call of [makeMove] sends at most one request, and the one it
    sends is the move in the clicked column under the session id the ref
    holds. *)
Theorem makeMove_one_request (col : nat) (h : Hook) :
  let h' := (makeMove net col h).1 in
  requests h' = requests h
  ∨ ∃ sid, Session.session_id (sessionRef h) = Some sid ∧
           requests h' = (requests h ++ [MoveRequest sid col])%list.
Proof.
  simpl. destruct (makeMove_cases col h) as [->|[->|(sid & Hacc & ->)]];
    [by left..|].
  right. exists sid. split; [by destruct Hacc as (_ & _ & _ & ? & _)|].
  by rewrite makeMove_request_requests.
Qed.

(** X8: the status moves only one way under [makeMove]: it keeps its
    value, or goes from "playing" to "draw", "won" or "lost"; it never
    becomes "connecting" or "error", and a finished game stays finished. *)
Theorem makeMove_status_transition (col : nat) (h : Hook) :
  let s' := state (makeMove net col h).1 in
  status s' = status (state h)
  ∨ (status (state h) = playing ∧ status s' ∈ [draw; won; lost]).
Proof.
  simpl. destruct (makeMove_cases col h) as [->|[->|(sid & Hacc & ->)]];
    [by left..|].
  destruct Hacc as (Hst & _). run_eff.
  destruct (net (MoveRequest sid col)) as [e|[[data|e]|st json]]; simpl;
    [| | |destruct (js_detail _); simpl];
    [by left| |by left..].
  destruct (Api.game_over data); simpl; [|by left].
  right. split; [done|]. rewrite !elem_of_cons.
  repeat case_bool_decide; simpl; [by auto| |];
    destruct (findWinningCells _ _); simpl; auto.
Qed.

(** X9: the winning cells are set only together with a win or a loss,
    and then they are cells of the new board that hold the winner's piece:
    "player" cells when the status becomes "won", "ai" cells when it becomes
    "lost", none or four of them.  In every other case [makeMove] leaves
    [winningCells] as it was. *)
Theorem makeMove_highlights (col : nat) (h : Hook) :
  let s' := state (makeMove net col h).1 in
  winningCells s' = winningCells (state h)
  ∨ ∃ w, (status s' = won ∧ w = Player ∨ status s' = lost ∧ w = Ai) ∧
         (winningCells s' = [] ∨ length (winningCells s') = 4) ∧
         Forall (fun p => cell_at (board s') p.1 p.2 = Some w) (winningCells s').
Proof.
  simpl. destruct (makeMove_cases col h) as [->|[->|(sid & Hacc & ->)]];
    [by left..|].
  run_eff.
  destruct (net (MoveRequest sid col)) as [e|[[data|e]|st json]]; simpl;
    [| | |destruct (js_detail _); simpl];
    [by left| |by left..].
  destruct (Api.game_over data); simpl; [|by left].
  repeat case_bool_decide; simpl; [by left| |].
  - destruct (findWinningCells _ Player) as [cells|e] eqn:Hfind; simpl; [|by left].
    right. exists Player. split; [by left|].
    by apply findWinningCells_Ok_holds in Hfind.
  - destruct (findWinningCells _ Ai) as [cells|e] eqn:Hfind; simpl; [|by left].
    right. exists Ai. split; [by right|].
    by apply findWinningCells_Ok_holds in Hfind.
Qed.

(** X10: a win is highlighted exactly when the board shows it.  When
    the response to a move ends the game with the human as winner on a 6x7
    board, the status is "won" and the winning cells are non-empty if and
    only if the displayed board holds four consecutive "player" cells; a
    win the board does not show is announced without a highlight. *)
Theorem makeMove_won_highlight (col : nat) (h : Hook) (sid : string)
    (data : Api.GameStateResponse) :
  accepts_move h col sid →
  net (MoveRequest sid col) = Resolved (HttpOk (Ok data)) →
  Api.game_over data = true →
  Api.winner data = Some (Api.human_player data) →
  Api.human_player data ≠ 3%Z →
  length (Api.board data) = 6 →
  Forall (fun row => length row = 7) (Api.board data) →
  let s' := state (makeMove net col h).1 in
  status s' = won ∧
  board s' = convertBoard (Api.board data) (Api.human_player data) ∧
  (winningCells s' ≠ [] ↔ has_four (board s') Player).
Proof.
  intros Hacc Hnet Hover Hwin Hh Hrows Hcols.
  rewrite (makeMove_accepted net col h sid Hacc).
  pose proof (convertBoard_6x7 _ (Api.human_player data) Hrows Hcols) as Hb.
  assert (ROWS ≤ length (convertBoard (Api.board data) (Api.human_player data)))
    as Hlen by (destruct Hb as [-> _]; lia).
  destruct (findWinningCells_inv _ Player ltac:(done) Hlen)
    as (cells & Hfind & Hcells).
  run_eff. rewrite Hnet. simpl. rewrite Hover. simpl.
  rewrite bool_decide_eq_false_2 by (rewrite Hwin; congruence).
  rewrite bool_decide_eq_true_2 by done. simpl. rewrite Hfind. simpl.
  split; [done|]. split; [done|].
  destruct Hcells as [[-> Hnone]|(d & r & c & Hin & -> & Hl)].
  - split; [done|]. intros Hfour.
    destruct (has_four_line_holds _ _ Hb Hfour) as (d & r & c & Hin & Hl).
    by destruct (Hnone d r c Hin).
  - split; [intros _; by eapply line_holds_has_four|].
    intros _. by destruct d.
Qed.


(** X12: a rejected [fetch] with an empty message fails silently.
    After a rejected request the message is the [message] of the error (or
    "Failed to make move" when the thrown value is no [Error]); the banner
    is shown only if that text is not empty, so a rejection whose message
    is [""] leaves the game untouched and shows nothing. *)
Theorem makeMove_rejected_message (col : nat) (h : Hook) (sid : string) (e : exn) :
  accepts_move h col sid →
  net (MoveRequest sid col) = Rejected e →
  let s' := state (makeMove net col h).1 in
  (∀ m, e = JsError m →
        errorMessage s' = Some m ∧ (errorBanner_shown s' = true ↔ m ≠ "")) ∧
  (e = NonError →
   errorMessage s' = Some "Failed to make move" ∧ errorBanner_shown s' = true).
Proof.
  intros Hacc Hnet. rewrite (makeMove_accepted net col h sid Hacc).
  run_eff. rewrite Hnet. simpl. unfold errorBanner_shown. simpl. split.
  - intros m ->. split; [done|]. simpl.
    rewrite negb_true_iff, bool_decide_eq_false. done.
  - by intros ->.
Qed.

(** X13: an ok response whose body cannot be read is a failed move
    too: the game is as it was, the error of [response.json()] gives the
    message, and the request is no longer in flight. *)
Theorem makeMove_bad_json (col : nat) (h : Hook) (sid : string) (e : exn) :
  accepts_move h col sid →
  net (MoveRequest sid col) = Resolved (HttpOk (Raise e)) →
  let s' := state (makeMove net col h).1 in
  board s' = board (state h) ∧
  status s' = status (state h) ∧
  currentTurn s' = currentTurn (state h) ∧
  winningCells s' = winningCells (state h) ∧
  errorMessage s'
  = Some match e with JsError m => m | NonError => "Failed to make move" end ∧
  isThinking s' = false.
Proof.
  intros Hacc Hnet. rewrite (makeMove_accepted net col h sid Hacc).
  run_eff. rewrite Hnet. simpl. done.
Qed.

(** X14: the hook never asks for the AI's move.  When the response to
    a move leaves the game going with the turn on the AI's side, the turn
    shown is the AI's, and every later [makeMove], in any column and
    whatever the backend would answer, does nothing: only a new game gets
    the hook out of that state. *)
Theorem makeMove_ai_turn_blocks (col : nat) (h : Hook) (sid : string)
    (data : Api.GameStateResponse) :
  accepts_move h col sid →
  net (MoveRequest sid col) = Resolved (HttpOk (Ok data)) →
  Api.game_over data = false →
  Api.current_player data ≠ Api.human_player data →
  let h' := (makeMove net col h).1 in
  status (state h') = playing ∧
  currentTurn (state h') = AiTurn ∧
  ∀ net' col', makeMove net' col' h' = (h', Ok tt).
Proof.
  intros Hacc Hnet Hover Hturn. simpl.
  assert (status (state (makeMove net col h).1) = playing
          ∧ currentTurn (state (makeMove net col h).1) = AiTurn) as [Hst Hai].
  { rewrite (makeMove_accepted net col h sid Hacc).
    destruct Hacc as (Hst & _). run_eff. rewrite Hnet. simpl. rewrite Hover.
    simpl. by rewrite bool_decide_eq_false_2. }
  split; [done|]. split; [done|]. intros net' col'.
  apply makeMove_disabled. unfold gameBoard_disabled. rewrite Hai.
  by rewrite orb_true_r.
Qed.

(** X15: a column that does not exist.  When the top row has no cell at
    index [col] (the column is past its end), [makeMove(col)] is ignored:
    [board[0][col]] is [undefined], which is not [null]. *)
Theorem makeMove_column_out_of_range (col : nat) (h : Hook) (row : list Cell) :
  board (state h) !! 0 = Some row → length row ≤ col →
  makeMove net col h = (h, Ok tt).
Proof.
  intros Hrow Hcol. unfold makeMove.
  destruct (_ || _ || _); [done|].
  destruct (Session.session_id (sessionRef h)) as [sid|]; [|done].
  destruct (negb (truthy (Some sid))); [done|].
  unfold bind, lift, ret, index2. rewrite Hrow.
  by rewrite (lookup_ge_None_2 row col Hcol).
Qed.

(** X16: a board without rows.  When the guards on status, turn,
    request in flight and session pass but the board has no row 0,
    [makeMove] throws the [TypeError] of reading [board[0][col]] before it
    sets or sends anything; the throw is outside its [try], so no error
    message is set either. *)
Theorem makeMove_no_rows (col : nat) (h : Hook) (sid : string) :
  status (state h) = playing → currentTurn (state h) = PlayerTurn →
  isThinking (state h) = false →
  Session.session_id (sessionRef h) = Some sid → sid ≠ "" →
  board (state h) = [] →
  makeMove net col h = (h, Raise TypeError_undefined).
Proof.
  intros Hst Hturn Hthink Hsid Hne Hb. unfold makeMove.
  rewrite Hst, Hturn, Hthink, Hsid, Hb. simpl.
  by rewrite (bool_decide_eq_false_2 (sid = "")).
Qed.

(** The hook after [initGame], by the outcome of its request. *)
Lemma initGame_ok_eq h data :
  net InitRequest = Resolved (HttpOk (Ok data)) →
  (initGame net h).1
  = {| state :=
         {| board := convertBoard (Api.board data) (Api.human_player data);
            currentTurn :=
              if bool_decide (Api.current_player data = Api.human_player data)
              then PlayerTurn else AiTurn;
            status := playing; winningCells := []; isThinking := false;
            errorMessage := None;
            aiFirst :=
              existsb (fun row =>
                         existsb (fun cell => negb (bool_decide (cell = 0%Z))) row)
                      (Api.board data) |};
       sessionRef :=
         {| Session.session_id := Some (Api.session_id data);
            Session.human_player := Api.human_player data;
            Session.ai_player := Api.ai_player data |};
       requests := requests h ++ [InitRequest] |}.
Proof.
  intros Hnet. unfold initGame, initGame_connect, initGame_reset.
  unfold bind at 1. unfold try_catch, bind at 6. unfold fetch.
  rewrite Hnet. reflexivity.
Qed.

Lemma initGame_fail_eq h :
  (∀ data, net InitRequest ≠ Resolved (HttpOk (Ok data))) →
  ∃ message,
    (initGame net h).1
    = {| state :=
           {| board := createEmptyBoard; currentTurn := currentTurn (state h);
              status := error; winningCells := []; isThinking := false;
              errorMessage := Some message; aiFirst := false |};
         sessionRef := sessionRef h;
         requests := requests h ++ [InitRequest] |}
    ∧ ∀ statusText json,
        net InitRequest = Resolved (HttpFail statusText json) →
        message = "Failed to initialize game: " +:+ statusText.
Proof.
  intros Hfail. unfold initGame, initGame_connect, initGame_reset.
  unfold bind at 1. unfold try_catch, bind at 6. unfold fetch.
  destruct (net InitRequest) as [e|[[data|e]|st json]] eqn:Hnet.
  - eexists. split; [reflexivity|]. intros; discriminate.
  - by destruct (Hfail data).
  - eexists. split; [reflexivity|]. intros; discriminate.
  - eexists. split; [reflexivity|]. by intros ? ? [= <- _].
Qed.

(** X17: a new game that succeeds starts from the response alone.
    After [initGame] meets an ok response, the status is "playing", nothing
    is in flight, no error and no winning cells are shown, the board is the
    converted response board, the turn is the human's exactly when the
    response says so, the ref holds the response's session, and none of this
    depends on the state the hook was in before. *)
Theorem initGame_success (h : Hook) (data : Api.GameStateResponse) :
  net InitRequest = Resolved (HttpOk (Ok data)) →
  let h1 := (initGame net h).1 in
  status (state h1) = playing ∧
  isThinking (state h1) = false ∧
  errorMessage (state h1) = None ∧
  winningCells (state h1) = [] ∧
  board (state h1) = convertBoard (Api.board data) (Api.human_player data) ∧
  (currentTurn (state h1) = PlayerTurn
   ↔ Api.current_player data = Api.human_player data) ∧
  sessionRef h1
  = {| Session.session_id := Some (Api.session_id data);
       Session.human_player := Api.human_player data;
       Session.ai_player := Api.ai_player data |} ∧
  requests h1 = (requests h ++ [InitRequest])%list ∧
  ∀ h0, state (initGame net h0).1 = state h1
        ∧ sessionRef (initGame net h0).1 = sessionRef h1.
Proof.
  intros Hnet. simpl. rewrite (initGame_ok_eq h data Hnet). simpl.
  repeat split; try done; try by case_bool_decide.
  all: by rewrite (initGame_ok_eq _ data Hnet).
Qed.

(** X18: a new game that fails.  When the init request is rejected,
    answered by a response that is not ok, or answered by a body that cannot
    be read, the status is "error" with a message, nothing is in flight, and
    the board, the winning cells and [aiFirst] are the cleared ones; the
    turn and the session of the ref are left as they were.  For a response
    that is not ok the message is "Failed to initialize game: " followed by
    its status text. *)
Theorem initGame_failure (h : Hook) :
  (∀ data, net InitRequest ≠ Resolved (HttpOk (Ok data))) →
  let h1 := (initGame net h).1 in
  status (state h1) = error ∧
  isThinking (state h1) = false ∧
  (∃ message, errorMessage (state h1) = Some message) ∧
  (∀ statusText json,
     net InitRequest = Resolved (HttpFail statusText json) →
     errorMessage (state h1) = Some ("Failed to initialize game: " +:+ statusText)) ∧
  board (state h1) = replicate 6 (replicate 7 Null) ∧
  winningCells (state h1) = [] ∧
  aiFirst (state h1) = false ∧
  currentTurn (state h1) = currentTurn (state h) ∧
  sessionRef h1 = sessionRef h.
Proof.
  intros Hfail. simpl.
  destruct (initGame_fail_eq h Hfail) as (message & -> & Hmsg). simpl.
  repeat split; eauto. intros statusText json Hnet.
  by rewrite (Hmsg statusText json Hnet).
Qed.

(** X19: the "AI moved first" notice.  After a new game that succeeds,
    [aiFirst] is true exactly when the board shown has a cell that is not
    empty. *)
Theorem initGame_aiFirst (h : Hook) (data : Api.GameStateResponse) :
  net InitRequest = Resolved (HttpOk (Ok data)) →
  let s1 := state (initGame net h).1 in
  aiFirst s1 = true ↔ ∃ r c v, cell_at (board s1) r c = Some v ∧ v ≠ Null.
Proof.
  intros Hnet. simpl. rewrite (initGame_ok_eq h data Hnet). simpl.
  apply convertBoard_some_piece.
Qed.

(** X20: a session with an empty id.  When the backend opens the game
    with [session_id] the empty string, the new game shows as "playing",
    but every [makeMove] is ignored (the id is falsy): no request is ever
    sent for that session. *)
Theorem initGame_empty_session (h : Hook) (data : Api.GameStateResponse) :
  net InitRequest = Resolved (HttpOk (Ok data)) →
  Api.session_id data = "" →
  let h1 := (initGame net h).1 in
  status (state h1) = playing ∧
  ∀ net' col, makeMove net' col h1 = (h1, Ok tt).
Proof.
  intros Hnet Hsid. simpl. rewrite (initGame_ok_eq h data Hnet). split; [done|].
  intros net' col. unfold makeMove.
  cbn [state sessionRef Session.session_id]. rewrite Hsid.
  by destruct (_ || _ || _).
Qed.
End MoreActionFacts.

(** [initGame] ends in one of two states. *)
Lemma initGame_outcome net h :
  (∃ data, net InitRequest = Resolved (HttpOk (Ok data))
           ∧ state (initGame net h).1
             = {| board := convertBoard (Api.board data) (Api.human_player data);
                  currentTurn :=
                    if bool_decide (Api.current_player data = Api.human_player data)
                    then PlayerTurn else AiTurn;
                  status := playing; winningCells := []; isThinking := false;
                  errorMessage := None;
                  aiFirst :=
                    existsb (fun row =>
                               existsb (fun cell => negb (bool_decide (cell = 0%Z))) row)
                            (Api.board data) |})
  ∨ (∃ message,
       state (initGame net h).1
       = {| board := createEmptyBoard; currentTurn := currentTurn (state h);
            status := error; winningCells := []; isThinking := false;
            errorMessage := Some message; aiFirst := false |}).
Proof.
  destruct (net InitRequest) as [e|[[data|e]|st json]] eqn:Hnet.
  - right. destruct (initGame_fail_eq net h) as (message & -> & _);
      [intros data; rewrite Hnet; discriminate|by exists message].
  - left. exists data. by rewrite (initGame_ok_eq net h data Hnet).
  - right. destruct (initGame_fail_eq net h) as (message & -> & _);
      [intros data; rewrite Hnet; discriminate|by exists message].
  - right. destruct (initGame_fail_eq net h) as (message & -> & _);
      [intros data; rewrite Hnet; discriminate|by exists message].
Qed.

Lemma initGame_requests net h :
  requests (initGame net h).1 = (requests h ++ [InitRequest])%list.
Proof.
  destruct (net InitRequest) as [e|[[data|e]|st json]] eqn:Hnet.
  - by destruct (initGame_fail_eq net h) as (message & -> & _);
      [intros data; rewrite Hnet; discriminate|].
  - by rewrite (initGame_ok_eq net h data Hnet).
  - by destruct (initGame_fail_eq net h) as (message & -> & _);
      [intros data; rewrite Hnet; discriminate|].
  - by destruct (initGame_fail_eq net h) as (message & -> & _);
      [intros data; rewrite Hnet; discriminate|].
Qed.

(** ** The board and the panels *)

(** X21: the guard of the board and the guard of the hook agree.  A
    click handled by [GameBoard] under the [disabled] prop of the current
    state does exactly what [makeMove] does: nothing the board lets through
    is then refused for status, turn or a request in flight, and nothing it
    blocks would have gone through. *)
Theorem columnClick_is_makeMove (net : Request → FetchOutcome) (col : nat) (h : Hook) :
  columnClick net (gameBoard_disabled (state h)) col h = makeMove net col h.
Proof.
  unfold columnClick. destruct (gameBoard_disabled (state h)) eqn:Hdis; [|done].
  symmetry. by apply makeMove_disabled.
Qed.

(** X22: an enabled drop button is a move that will be sent.  The drop
    button of column [col] is enabled, and the ref holds a non-empty session
    id, exactly when [makeMove(col)] passes all its guards. *)
Theorem dropButton_enabled_iff_accepts (h : Hook) (col : nat) (sid : string) :
  dropButton_disabled (board (state h)) (gameBoard_disabled (state h)) col = Ok false
  ∧ Session.session_id (sessionRef h) = Some sid ∧ sid ≠ ""
  ↔ accepts_move h col sid.
Proof.
  unfold accepts_move, dropButton_disabled, gameBoard_disabled. split.
  - intros (Hbtn & Hsid & Hne).
    destruct (_ || _ || _) eqn:Hdis; [done|].
    apply orb_false_iff in Hdis as [Hdis Hthink].
    apply orb_false_iff in Hdis as [Hst Hturn].
    apply negb_false_iff, bool_decide_eq_true in Hst, Hturn.
    destruct (index2 (board (state h)) 0 col) as [top|e]; [|done].
    injection Hbtn as Hbtn. apply negb_false_iff, bool_decide_eq_true in Hbtn.
    by subst.
  - intros (Hst & Hturn & Hthink & Hsid & Hne & Htop).
    rewrite Hst, Hturn, Hthink, Htop. simpl. done.
Qed.

(** X23: the headline tells the state.  Two states with the same
    headline of [getStatusText] have the same status and, while playing, the
    same "thinking" flag and, when not thinking, the same turn. *)
Theorem getStatusText_main_injective (st st' : GameStatus) (t t' : Turn)
    (th th' : bool) :
  main (getStatusText st t th) = main (getStatusText st' t' th') →
  st = st' ∧ (st = playing → th = th' ∧ (th = false → t = t')).
Proof.
  destruct st, st', t, t', th, th'; simpl; intros H;
    try discriminate H; repeat split; intros; done.
Qed.

Lemma getStatusText_main_injective_witness :
  (playing = playing ∧
   (playing = playing → true = true ∧ (true = false → PlayerTurn = AiTurn))) ∧
  main (getStatusText playing PlayerTurn false)
  ≠ main (getStatusText playing AiTurn false) ∧
  main (getStatusText playing PlayerTurn true)
  ≠ main (getStatusText playing PlayerTurn false).
Proof.
  split; [|split].
  - apply (getStatusText_main_injective playing playing PlayerTurn AiTurn true true).
    reflexivity.
  - intros Hsame.
    destruct (getStatusText_main_injective playing playing PlayerTurn AiTurn
                false false Hsame) as [_ Hplaying].
    destruct (Hplaying eq_refl) as [_ Hturn]. discriminate (Hturn eq_refl).
  - intros Hsame.
    destruct (getStatusText_main_injective playing playing PlayerTurn PlayerTurn
                true false Hsame) as [_ Hplaying].
    destruct (Hplaying eq_refl) as [Hthinking _]. discriminate Hthinking.
Defined.

(** ** Sessions of play *)

Lemma isWinningCell_elem cells row col :
  isWinningCell cells row col = true ↔ (row, col) ∈ cells.
Proof.
  unfold isWinningCell. rewrite existsb_exists. split.
  - intros ([r c] & Hin & Heq). apply andb_true_iff in Heq as [Hr Hc].
    apply bool_decide_eq_true in Hr, Hc. subst. by apply list_elem_of_In.
  - intros Hin. exists (row, col). split; [by apply list_elem_of_In|].
    by rewrite !bool_decide_eq_true_2.
Qed.

Lemma initial_hook_between_actions : between_actions initial_hook.
Proof.
  unfold between_actions. simpl. repeat split; try done.
Qed.

Lemma initGame_between_actions net h : between_actions (initGame net h).1.
Proof.
  unfold between_actions.
  destruct (initGame_outcome net h) as [(data & _ & ->)|(message & ->)]; simpl;
    repeat split; done.
Qed.

Lemma makeMove_between_actions net col h :
  between_actions h → between_actions (makeMove net col h).1.
Proof.
  intros Hinv.
  destruct (makeMove_cases net col h) as [->|[->|(sid & Hacc & ->)]]; [done..|].
  destruct Hinv as (_ & Hnone & _ & _). destruct Hacc as (Hst & _).
  assert (winningCells (state h) = []) as Hcells
    by (apply Hnone; rewrite Hst; apply list_elem_of_here).
  clear Hnone. unfold between_actions, line_holds.
  unfold makeMove_request, makeMove_status, fetch, bind, try_catch, throw, lift,
    ret, setBoard, setCurrentTurn, setStatus, setWinningCells, setIsThinking,
    setErrorMessage, modify_state. simpl.
  destruct (net (MoveRequest sid col)) as [e|[[data|e]|st json]]; simpl;
    [| | |destruct (js_detail _); simpl];
    rewrite ?Hst, ?Hcells; try (repeat split; done).
  destruct (Api.game_over data); simpl;
    rewrite ?Hst, ?Hcells; try (repeat split; done).
  repeat case_bool_decide; simpl; rewrite ?Hcells; try (repeat split; done).
  - destruct (findWinningCells _ Player) as [cells|e] eqn:Hfind; simpl;
      rewrite ?Hcells; try (repeat split; done).
    apply findWinningCells_Ok_holds in Hfind as [_ Hl]; [|done].
    repeat split; try done. intros Hin.
    rewrite !elem_of_cons, elem_of_nil in Hin.
    destruct Hin as [Hin|[Hin|[Hin|[Hin|[]]]]]; discriminate.
  - destruct (findWinningCells _ Ai) as [cells|e] eqn:Hfind; simpl;
      rewrite ?Hcells; try (repeat split; done).
    apply findWinningCells_Ok_holds in Hfind as [_ Hl]; [|done].
    repeat split; try done. intros Hin.
    rewrite !elem_of_cons, elem_of_nil in Hin.
    destruct Hin as [Hin|[Hin|[Hin|[Hin|[]]]]]; discriminate.
Qed.

Lemma perform_between_actions net a h :
  between_actions h → between_actions (perform net a h).
Proof.
  intros Hinv. destruct a as [|col]; simpl.
  - apply initGame_between_actions.
  - unfold columnClick. destruct (gameBoard_disabled (state h)); [done|].
    by apply makeMove_between_actions.
Qed.

Lemma run_between_actions script h :
  between_actions h → between_actions (run script h).
Proof.
  revert h. induction script as [|[a net] script IH]; intros h Hinv; simpl.
  - done.
  - by apply IH, perform_between_actions.
Qed.

Lemma makeMove_not_connecting net col h :
  status (state h) ≠ connecting → status (state (makeMove net col h).1) ≠ connecting.
Proof.
  intros Hst.
  destruct (makeMove_cases net col h) as [->|[->|(sid & Hacc & ->)]]; [done..|].
  destruct Hacc as (Hplay & _).
  unfold makeMove_request, makeMove_status, fetch, bind, try_catch, throw, lift,
    ret, setBoard, setCurrentTurn, setStatus, setWinningCells, setIsThinking,
    setErrorMessage, modify_state. simpl.
  destruct (net (MoveRequest sid col)) as [e|[[data|e]|st json]]; simpl;
    [| | |destruct (js_detail _); simpl]; try done.
  destruct (Api.game_over data); simpl; [|done].
  repeat case_bool_decide; simpl; try done;
    destruct (findWinningCells _ _); simpl; done.
Qed.

Lemma initGame_not_connecting net h :
  status (state (initGame net h).1) ≠ connecting.
Proof.
  by destruct (initGame_outcome net h) as [(data & _ & ->)|(message & ->)].
Qed.

Lemma run_not_connecting script h :
  status (state h) ≠ connecting → status (state (run script h)) ≠ connecting.
Proof.
  revert h. induction script as [|[a net] script IH]; intros h Hst; simpl; [done|].
  apply IH. destruct a as [|col]; simpl.
  - apply initGame_not_connecting.
  - unfold columnClick. destruct (gameBoard_disabled (state h)); [done|].
    by apply makeMove_not_connecting.
Qed.

(** X24: nothing stays pending.  From the mount of the hook on, after
    any sequence of new games and column clicks, each run to completion
    against any backend, no request is in flight and the status is not
    "connecting": every action ends in "playing", a finished game or
    "error". *)
Theorem run_settles (net0 : Request → FetchOutcome)
    (script : list (Action * (Request → FetchOutcome))) :
  let h := run ((NewGame, net0) :: script) initial_hook in
  isThinking (state h) = false ∧ status (state h) ≠ connecting.
Proof.
  simpl. split.
  - apply run_between_actions, initGame_between_actions.
  - apply run_not_connecting, initGame_not_connecting.
Qed.

(** X25: what the board highlights.  After any sequence of actions
    from the initial state, a cell that [GameBoard] marks as winning holds
    the winner's piece on the board shown: a "player" cell of a game that
    is "won", or an "ai" cell of a game that is "lost". *)
Theorem run_highlights_winner (script : list (Action * (Request → FetchOutcome)))
    (row col : nat) :
  let s := state (run script initial_hook) in
  isWinningCell (winningCells s) row col = true →
  (status s = won ∧ cell_at (board s) row col = Some Player)
  ∨ (status s = lost ∧ cell_at (board s) row col = Some Ai).
Proof.
  simpl. intros Hwin. apply isWinningCell_elem in Hwin.
  destruct (run_between_actions script initial_hook initial_hook_between_actions)
    as (_ & Hnone & Hwon & Hlost).
  unfold line_holds in Hwon, Hlost. rewrite Forall_forall in Hwon, Hlost.
  destruct (status (state (run script initial_hook))) eqn:Hst.
  - rewrite Hnone in Hwin; [by apply elem_of_nil in Hwin|].
    rewrite !elem_of_cons. auto.
  - left. split; [done|]. by apply (Hwon eq_refl (row, col)).
  - right. split; [done|]. by apply (Hlost eq_refl (row, col)).
  - rewrite Hnone in Hwin; [by apply elem_of_nil in Hwin|].
    rewrite !elem_of_cons. auto.
  - rewrite Hnone in Hwin; [by apply elem_of_nil in Hwin|].
    rewrite !elem_of_cons. auto.
  - rewrite Hnone in Hwin; [by apply elem_of_nil in Hwin|].
    rewrite !elem_of_cons. auto.
Qed.

Lemma run_highlights_winner_witness :
  let s := state (run [(NewGame, sample_backend); (ColumnClick 3, finished_backend 1)]
                      initial_hook) in
  status s = won ∧ cell_at (board s) 5 2 = Some Player.
Proof.
  destruct (run_highlights_winner
              [(NewGame, sample_backend); (ColumnClick 3, finished_backend 1)] 5 2)
    as [Hwon|[Hlost _]].
  - vm_compute. reflexivity.
  - exact Hwon.
  - exfalso. vm_compute in Hlost. discriminate Hlost.
Defined.

Lemma perform_requests net a h :
  requests (perform net a h) = requests h
  ∨ ∃ req, requests (perform net a h) = (requests h ++ [req])%list.
Proof.
  destruct a as [|col]; simpl.
  - right. exists InitRequest. apply initGame_requests.
  - unfold columnClick. destruct (gameBoard_disabled (state h)); [by left|].
    destruct (makeMove_cases net col h) as [->|[->|(sid & Hacc & ->)]];
      [by left..|].
    right. exists (MoveRequest sid col). by rewrite makeMove_request_requests.
Qed.

(** X26: the requests sent.  Over any sequence of actions the log of
    requests only grows at its end, by at most one request per action. *)
Theorem run_requests (script : list (Action * (Request → FetchOutcome))) (h : Hook) :
  ∃ sent, requests (run script h) = (requests h ++ sent)%list
          ∧ length sent ≤ length script.
Proof.
  revert h. induction script as [|[a net] script IH]; intros h; simpl.
  - exists []. by rewrite app_nil_r.
  - destruct (IH (perform net a h)) as (sent & -> & Hlen).
    destruct (perform_requests net a h) as [->|[req ->]].
    + exists sent. split; [done|lia].
    + exists (req :: sent). split; [by rewrite <- app_assoc|simpl; lia].
Qed.

(** ** Sample runs of the further properties *)

Lemma makeMove_won_highlight_witness :
  let s' := state (makeMove (finished_backend 1) 3 started_hook).1 in
  status s' = won ∧
  board s' = convertBoard (replicate 5 (replicate 7 0%Z) ++ [[1; 1; 1; 1; 2; 2; 2]%Z]) 1 ∧
  (winningCells s' ≠ [] ↔ has_four (board s') Player).
Proof.
  apply (makeMove_won_highlight (finished_backend 1) 3 started_hook "s1"
           {| Api.session_id := "s1";
              Api.board := replicate 5 (replicate 7 0%Z) ++ [[1; 1; 1; 1; 2; 2; 2]%Z];
              Api.ai_player := 2; Api.human_player := 1; Api.current_player := 2;
              Api.game_over := true; Api.winner := Some 1%Z |}).
  - repeat split; try reflexivity. discriminate.
  - reflexivity.
  - reflexivity.
  - reflexivity.
  - simpl. lia.
  - reflexivity.
  - by repeat constructor.
Defined.


Lemma makeMove_rejected_message_witness :
  errorMessage (state (makeMove unreachable_backend 3 started_hook).1)
  = Some "Failed to fetch".
Proof.
  destruct (makeMove_rejected_message unreachable_backend 3 started_hook "s1"
              (JsError "Failed to fetch")) as [Hmsg _].
  - repeat split; try reflexivity. discriminate.
  - reflexivity.
  - by destruct (Hmsg "Failed to fetch" eq_refl) as [Hm _].
Defined.

Lemma makeMove_bad_json_witness :
  let s' := state (makeMove garbled_backend 3 started_hook).1 in
  board s' = board (state started_hook) ∧
  status s' = status (state started_hook) ∧
  currentTurn s' = currentTurn (state started_hook) ∧
  winningCells s' = winningCells (state started_hook) ∧
  errorMessage s' = Some "Unexpected token < in JSON" ∧
  isThinking s' = false.
Proof.
  apply (makeMove_bad_json garbled_backend 3 started_hook "s1"
           (JsError "Unexpected token < in JSON")).
  - repeat split; try reflexivity. discriminate.
  - reflexivity.
Defined.

Lemma makeMove_ai_turn_blocks_witness :
  let h' := (makeMove waiting_backend 3 started_hook).1 in
  status (state h') = playing ∧
  currentTurn (state h') = AiTurn ∧
  ∀ net' col', makeMove net' col' h' = (h', Ok tt).
Proof.
  apply (makeMove_ai_turn_blocks waiting_backend 3 started_hook "s1"
           {| Api.session_id := "s1";
              Api.board := replicate 5 (replicate 7 0%Z) ++ [[0; 0; 0; 1; 0; 0; 0]%Z];
              Api.ai_player := 2; Api.human_player := 1; Api.current_player := 2;
              Api.game_over := false; Api.winner := None |}).
  - repeat split; try reflexivity. discriminate.
  - reflexivity.
  - reflexivity.
  - simpl. lia.
Defined.

Lemma makeMove_column_out_of_range_witness :
  makeMove sample_backend 7 started_hook = (started_hook, Ok tt).
Proof.
  apply (makeMove_column_out_of_range sample_backend 7 started_hook
           (replicate 7 Null)).
  - reflexivity.
  - simpl. lia.
Defined.

Lemma makeMove_no_rows_witness :
  let h := (initGame rowless_backend initial_hook).1 in
  makeMove sample_backend 3 h = (h, Raise TypeError_undefined).
Proof.
  apply (makeMove_no_rows sample_backend 3
           (initGame rowless_backend initial_hook).1 "s1");
    try reflexivity. discriminate.
Defined.

Lemma initGame_success_witness :
  status (state (initGame sample_backend initial_hook).1) = playing ∧
  requests (initGame sample_backend initial_hook).1 = [InitRequest].
Proof.
  destruct (initGame_success sample_backend initial_hook
              (sample_response (replicate 6 (replicate 7 0%Z))) eq_refl)
    as (Hst & _ & _ & _ & _ & _ & _ & Hreq & _).
  split; [exact Hst|exact Hreq].
Defined.

Lemma initGame_failure_witness :
  status (state (initGame unreachable_backend started_hook).1) = error ∧
  sessionRef (initGame unreachable_backend started_hook).1 = sessionRef started_hook.
Proof.
  destruct (initGame_failure unreachable_backend started_hook)
    as (Hst & _ & _ & _ & _ & _ & _ & _ & Href).
  - intros data. discriminate.
  - split; [exact Hst|exact Href].
Defined.

Lemma initGame_aiFirst_witness :
  aiFirst (state (initGame waiting_backend initial_hook).1) = true
  ↔ ∃ r c v, cell_at (board (state (initGame waiting_backend initial_hook).1)) r c
             = Some v ∧ v ≠ Null.
Proof.
  apply (initGame_aiFirst waiting_backend initial_hook
           {| Api.session_id := "s1";
              Api.board := replicate 5 (replicate 7 0%Z) ++ [[0; 0; 0; 1; 0; 0; 0]%Z];
              Api.ai_player := 2; Api.human_player := 1; Api.current_player := 2;
              Api.game_over := false; Api.winner := None |}).
  reflexivity.
Defined.

Lemma initGame_empty_session_witness :
  let h1 := (initGame anonymous_backend initial_hook).1 in
  status (state h1) = playing ∧
  ∀ net' col, makeMove net' col h1 = (h1, Ok tt).
Proof.
  apply (initGame_empty_session anonymous_backend initial_hook
           {| Api.session_id := ""; Api.board := replicate 6 (replicate 7 0%Z);
              Api.ai_player := 2; Api.human_player := 1; Api.current_player := 1;
              Api.game_over := false; Api.winner := None |});
    reflexivity.
Defined.

Lemma dropButton_enabled_iff_accepts_witness :
  accepts_move started_hook 3 "s1".
Proof.
  apply (dropButton_enabled_iff_accepts started_hook 3 "s1").
  repeat split; try reflexivity. discriminate.
Defined.
